(** * Scoring API: field validators, request schemas, authentication, dispatch

    A shallow embedding of [scoring.py], [models.py] and the dispatcher
    [method_handler] of [api.py], followed by the properties of the
    specification stated and settled on that embedding.

    Python values are an inductive type of JSON-decoded data; the
    class-level descriptors of [models.py] keep their values in one store
    shared by every instance, as the source does; exceptions are results;
    the wall clock and the random generator are part of the world the
    program runs in. *)

From Stdlib Require Import ZArith List String Ascii Bool Lia PrimFloat.
Import ListNotations.

Set Warnings "-register-all".

Local Open Scope string_scope.
Local Open Scope Z_scope.

(* ===================================================================== *)
(** * Library models *)
(* ===================================================================== *)

(** ** [hashlib.sha512(...).hexdigest()] and [str.encode("utf-8")] *)

Module Hashlib.

Definition mask64 : Z := 0xffffffffffffffff.

Definition add64 (x y : Z) : Z := Z.land (x + y) mask64.

Definition rotr (x n : Z) : Z :=
  Z.land (Z.lor (Z.shiftr x n) (Z.shiftl x (64 - n))) mask64.

Definition not64 (x : Z) : Z := Z.lxor x mask64.

Definition Ch (e f g : Z) : Z := Z.lxor (Z.land e f) (Z.land (not64 e) g).

Definition Maj (a b c : Z) : Z :=
  Z.lxor (Z.lxor (Z.land a b) (Z.land a c)) (Z.land b c).

Definition Sigma0 (a : Z) : Z := Z.lxor (Z.lxor (rotr a 28) (rotr a 34)) (rotr a 39).
Definition Sigma1 (e : Z) : Z := Z.lxor (Z.lxor (rotr e 14) (rotr e 18)) (rotr e 41).
Definition sigma0 (x : Z) : Z := Z.lxor (Z.lxor (rotr x 1) (rotr x 8)) (Z.shiftr x 7).
Definition sigma1 (x : Z) : Z := Z.lxor (Z.lxor (rotr x 19) (rotr x 61)) (Z.shiftr x 6).

Definition H0 : list Z :=
  [ 0x6a09e667f3bcc908; 0xbb67ae8584caa73b; 0x3c6ef372fe94f82b; 0xa54ff53a5f1d36f1;
    0x510e527fade682d1; 0x9b05688c2b3e6c1f; 0x1f83d9abfb41bd6b; 0x5be0cd19137e2179 ].

Definition K : list Z :=
  [ 0x428a2f98d728ae22; 0x7137449123ef65cd; 0xb5c0fbcfec4d3b2f; 0xe9b5dba58189dbbc;
    0x3956c25bf348b538; 0x59f111f1b605d019; 0x923f82a4af194f9b; 0xab1c5ed5da6d8118;
    0xd807aa98a3030242; 0x12835b0145706fbe; 0x243185be4ee4b28c; 0x550c7dc3d5ffb4e2;
    0x72be5d74f27b896f; 0x80deb1fe3b1696b1; 0x9bdc06a725c71235; 0xc19bf174cf692694;
    0xe49b69c19ef14ad2; 0xefbe4786384f25e3; 0x0fc19dc68b8cd5b5; 0x240ca1cc77ac9c65;
    0x2de92c6f592b0275; 0x4a7484aa6ea6e483; 0x5cb0a9dcbd41fbd4; 0x76f988da831153b5;
    0x983e5152ee66dfab; 0xa831c66d2db43210; 0xb00327c898fb213f; 0xbf597fc7beef0ee4;
    0xc6e00bf33da88fc2; 0xd5a79147930aa725; 0x06ca6351e003826f; 0x142929670a0e6e70;
    0x27b70a8546d22ffc; 0x2e1b21385c26c926; 0x4d2c6dfc5ac42aed; 0x53380d139d95b3df;
    0x650a73548baf63de; 0x766a0abb3c77b2a8; 0x81c2c92e47edaee6; 0x92722c851482353b;
    0xa2bfe8a14cf10364; 0xa81a664bbc423001; 0xc24b8b70d0f89791; 0xc76c51a30654be30;
    0xd192e819d6ef5218; 0xd69906245565a910; 0xf40e35855771202a; 0x106aa07032bbd1b8;
    0x19a4c116b8d2d0c8; 0x1e376c085141ab53; 0x2748774cdf8eeb99; 0x34b0bcb5e19b48a8;
    0x391c0cb3c5c95a63; 0x4ed8aa4ae3418acb; 0x5b9cca4f7763e373; 0x682e6ff3d6b2b8a3;
    0x748f82ee5defb2fc; 0x78a5636f43172f60; 0x84c87814a1f0ab72; 0x8cc702081a6439ec;
    0x90befffa23631e28; 0xa4506cebde82bde9; 0xbef9a3f7b2c67915; 0xc67178f2e372532b;
    0xca273eceea26619c; 0xd186b8c721c0c207; 0xeada7dd6cde0eb1e; 0xf57d4f7fee6ed178;
    0x06f067aa72176fba; 0x0a637dc5a2c898a6; 0x113f9804bef90dae; 0x1b710b35131c471b;
    0x28db77f523047d84; 0x32caab7b40c72493; 0x3c9ebe0a15c9bebc; 0x431d67c49c100d4c;
    0x4cc5d4becb3e42b6; 0x597f299cfc657e2a; 0x5fcb6fab3ad6faec; 0x6c44198c4a475817 ].

(** Big-endian reading and writing of machine words. *)
Definition be_word (bs : list Z) : Z :=
  fold_left (fun acc b => acc * 256 + b) bs 0.

Fixpoint be_bytes (n : nat) (x : Z) : list Z :=
  match n with
  | O => []
  | S n' => be_bytes n' (x / 256) ++ [x mod 256]
  end.

(** The message followed by the bit 1, zero bytes up to 112 modulo 128, and
    the bit length on 16 bytes. *)
Definition pad (msg : list Z) : list Z :=
  let len := Z.of_nat (List.length msg) in
  let zeros := (128 - (len + 17) mod 128) mod 128 in
  msg ++ [0x80] ++ repeat 0 (Z.to_nat zeros) ++ be_bytes 16 (8 * len).

Fixpoint groups (fuel size : nat) (bs : list Z) : list (list Z) :=
  match fuel with
  | O => []
  | S fuel' =>
      match bs with
      | [] => []
      | _ => firstn size bs :: groups fuel' size (skipn size bs)
      end
  end.

Definition blocks (bs : list Z) : list (list Z) :=
  groups (List.length bs) 128 bs.

Definition block_words (block : list Z) : list Z :=
  map be_word (groups 16 8 block).

Fixpoint extend (n : nat) (w : list Z) : list Z :=
  match n with
  | O => w
  | S n' =>
      let t := List.length w in
      let at_ k := nth (t - k) w 0 in
      extend n'
        (w ++ [add64 (add64 (add64 (sigma1 (at_ 2%nat)) (at_ 7%nat))
                            (sigma0 (at_ 15%nat))) (at_ 16%nat)])
  end.

Definition schedule (block : list Z) : list Z := extend 64 (block_words block).

Record regs := Regs { ra : Z; rb : Z; rc : Z; rd : Z; re : Z; rf : Z; rg : Z; rh : Z }.

Definition round (s : regs) (kw : Z * Z) : regs :=
  let t1 := add64 (add64 (add64 (add64 (rh s) (Sigma1 (re s)))
                                (Ch (re s) (rf s) (rg s))) (fst kw)) (snd kw) in
  let t2 := add64 (Sigma0 (ra s)) (Maj (ra s) (rb s) (rc s)) in
  Regs (add64 t1 t2) (ra s) (rb s) (rc s) (add64 (rd s) t1) (re s) (rf s) (rg s).

Definition regs_of (h : list Z) : regs :=
  Regs (nth 0 h 0) (nth 1 h 0) (nth 2 h 0) (nth 3 h 0)
       (nth 4 h 0) (nth 5 h 0) (nth 6 h 0) (nth 7 h 0).

Definition regs_list (s : regs) : list Z :=
  [ra s; rb s; rc s; rd s; re s; rf s; rg s; rh s].

Definition compress (h : list Z) (block : list Z) : list Z :=
  let s := fold_left round (combine K (schedule block)) (regs_of h) in
  map (fun p => add64 (fst p) (snd p)) (combine h (regs_list s)).

Definition sha512_words (msg : list Z) : list Z :=
  fold_left compress (blocks (pad msg)) H0.

Definition hex_digit (d : Z) : ascii :=
  if d <? 10 then ascii_of_N (Z.to_N (48 + d)) else ascii_of_N (Z.to_N (87 + d)).

Fixpoint hex_word (n : nat) (x : Z) : string :=
  match n with
  | O => ""
  | S n' => hex_word n' (x / 16) ++ String (hex_digit (x mod 16)) ""
  end.

(** [s.encode("utf-8")] for text whose characters are code points below
    256, which is what [ascii] holds. *)
Definition utf8_char (c : ascii) : list Z :=
  let n := Z.of_N (N_of_ascii c) in
  if n <? 128 then [n] else [192 + n / 64; 128 + n mod 64].

Definition encode_utf8 (s : string) : list Z :=
  flat_map utf8_char (list_ascii_of_string s).

(** [hashlib.sha512(s.encode("utf-8")).hexdigest()] *)
Definition sha512_hexdigest (s : string) : string :=
  fold_right (fun w acc => hex_word 16 w ++ acc) "" (sha512_words (encode_utf8 s)).

End Hashlib.

(** ** Python values *)

(** Values decoded from a JSON body: [None], booleans, integers, text,
    lists and objects with text keys kept in insertion order.  Numbers with
    a fraction are left out of this type; scores, the only floats the
    program computes, are [float]s of their own in the payloads below. *)
Inductive pyval : Type :=
| PNone
| PBool (b : bool)
| PInt (n : Z)
| PStr (s : string)
| PList (l : list pyval)
| PDict (d : list (string * pyval)).

Definition dict : Type := list (string * pyval).

Inductive exn : Type :=
| ValueError (msg : string)
| AttributeError (msg : string)
| TypeError (msg : string).

Inductive result (A : Type) : Type :=
| Ok (a : A)
| Raise (e : exn).

Arguments Ok {A} a.
Arguments Raise {A} e.

Module Py.

(** [bool(v)], the test behind [if v:] and [a and b]. *)
Definition truthy (v : pyval) : bool :=
  match v with
  | PNone => false
  | PBool b => b
  | PInt n => negb (n =? 0)
  | PStr s => negb (String.eqb s "")
  | PList l => match l with [] => false | _ => true end
  | PDict d => match d with [] => false | _ => true end
  end.

Definition is_none (v : pyval) : bool :=
  match v with PNone => true | _ => false end.

(** [isinstance(v, str)] *)
Definition is_str (v : pyval) : bool :=
  match v with PStr _ => true | _ => false end.

(** [isinstance(v, int)]: [bool] is a subclass of [int]. *)
Definition is_int (v : pyval) : bool :=
  match v with PInt _ | PBool _ => true | _ => false end.

Definition is_list (v : pyval) : bool :=
  match v with PList _ => true | _ => false end.

Definition is_dict (v : pyval) : bool :=
  match v with PDict _ => true | _ => false end.

(** [int(v)] of an instance of [int]. *)
Definition int_value (v : pyval) : Z :=
  match v with
  | PInt n => n
  | PBool true => 1
  | _ => 0
  end.

(** [v == "literal"] *)
Definition eq_str (v : pyval) (s : string) : bool :=
  match v with PStr s' => String.eqb s' s | _ => false end.

(** [v == {}] and [v == []] *)
Definition eq_empty_dict (v : pyval) : bool :=
  match v with PDict [] => true | _ => false end.

Definition eq_empty_list (v : pyval) : bool :=
  match v with PList [] => true | _ => false end.

(** [d.get(key, default)] on a dict. *)
Fixpoint lookup (d : dict) (key : string) : option pyval :=
  match d with
  | [] => None
  | (k, v) :: rest => if String.eqb k key then Some v else lookup rest key
  end.

Definition dict_get (d : dict) (key : string) (default : pyval) : pyval :=
  match lookup d key with Some v => v | None => default end.

(** [d[key] = v]: an existing key keeps its place. *)
Fixpoint dict_set (d : dict) (key : string) (v : pyval) : dict :=
  match d with
  | [] => [(key, v)]
  | (k, x) :: rest =>
      if String.eqb k key then (k, v) :: rest else (k, x) :: dict_set rest key v
  end.

(** [type(v).__name__] *)
Definition type_name (v : pyval) : string :=
  match v with
  | PNone => "NoneType"
  | PBool _ => "bool"
  | PInt _ => "int"
  | PStr _ => "str"
  | PList _ => "list"
  | PDict _ => "dict"
  end.

(** The exception of a failed attribute lookup, ['list' object has no
    attribute 'get'] for instance. *)
Definition no_attribute (obj : pyval) (attr : string) : exn :=
  AttributeError ("'" ++ type_name obj ++ "' object has no attribute '"
                  ++ attr ++ "'").

(** [obj.get(key, default)] on any value: only a dict has the method. *)
Definition get (obj : pyval) (key : string) (default : pyval) : result pyval :=
  match obj with
  | PDict d => Ok (dict_get d key default)
  | _ => Raise (no_attribute obj "get")
  end.

Definition quote : ascii := ascii_of_N 39.
Definition dquote : ascii := ascii_of_N 34.
Definition backslash : ascii := ascii_of_N 92.

Definition code (c : ascii) : Z := Z.of_N (N_of_ascii c).

Fixpoint join (sep : string) (parts : list string) : string :=
  match parts with
  | [] => ""
  | [p] => p
  | p :: rest => p ++ sep ++ join sep rest
  end.

Fixpoint contains_char (c : ascii) (s : string) : bool :=
  match s with
  | EmptyString => false
  | String c' rest => Ascii.eqb c c' || contains_char c rest
  end.

Definition digit (d : Z) : ascii := ascii_of_N (Z.to_N (48 + d)).

Fixpoint decimal (fuel : nat) (n : Z) (acc : string) : string :=
  match fuel with
  | O => acc
  | S fuel' =>
      let acc' := String (digit (n mod 10)) acc in
      if n / 10 =? 0 then acc' else decimal fuel' (n / 10) acc'
  end.

(** Decimal text of a natural number; it has no more decimal digits than
    binary ones. *)
Definition nat_repr (n : Z) : string :=
  decimal (S (Z.to_nat (Z.log2 n))) n "".

Definition int_repr (n : Z) : string :=
  if n <? 0 then "-" ++ nat_repr (- n) else nat_repr n.

(** [repr] of text whose characters are code points below 256. *)
Definition char_repr (q c : ascii) : string :=
  let n := code c in
  if Ascii.eqb c q || Ascii.eqb c backslash then String backslash (String c "")
  else if n =? 9 then String backslash "t"
  else if n =? 10 then String backslash "n"
  else if n =? 13 then String backslash "r"
  else if (n <? 32) || ((127 <=? n) && (n <=? 160)) || (n =? 173)
       then String backslash ("x" ++ Hashlib.hex_word 2 n)
  else String c "".

Definition str_repr (s : string) : string :=
  let q := if contains_char quote s && negb (contains_char dquote s)
           then dquote else quote in
  String q (String.concat "" (map (char_repr q) (list_ascii_of_string s))
            ++ String q "").

Fixpoint repr (v : pyval) : string :=
  match v with
  | PNone => "None"
  | PBool true => "True"
  | PBool false => "False"
  | PInt n => int_repr n
  | PStr s => str_repr s
  | PList l => "[" ++ join ", " (map repr l) ++ "]"
  | PDict d =>
      "{" ++ join ", " (map (fun kv => match kv with
                                       | (k, x) => str_repr k ++ ": " ++ repr x
                                       end) d) ++ "}"
  end.

(** [str(v)] *)
Definition str (v : pyval) : string :=
  match v with
  | PStr s => s
  | _ => repr v
  end.

(** [str(e)] of an [str | None] inside an f-string. *)
Definition str_opt (e : option string) : string :=
  match e with Some s => s | None => "None" end.

(** [a + b] *)
Definition add (a b : pyval) : result pyval :=
  match a, b with
  | PStr x, PStr y => Ok (PStr (x ++ y))
  | PList x, PList y => Ok (PList (x ++ y))
  | (PInt _ | PBool _), (PInt _ | PBool _) => Ok (PInt (int_value a + int_value b))
  | (PStr _ | PList _), _ =>
      Raise (TypeError ("can only concatenate " ++ type_name a ++ " (not "
                        ++ String dquote (type_name b)
                        ++ String dquote (") to " ++ type_name a)))
  | _, _ =>
      Raise (TypeError ("unsupported operand type(s) for +: '" ++ type_name a
                        ++ "' and '" ++ type_name b ++ "'"))
  end.

(** [s.startswith(prefix)] and [sub in s] for a one-character [sub]. *)
Definition startswith (s prefix : string) : bool := String.prefix prefix s.

Definition len (s : string) : Z := Z.of_nat (String.length s).

(** [len(v)] of any value. *)
Definition len_of (v : pyval) : result Z :=
  match v with
  | PStr s => Ok (len s)
  | PList l => Ok (Z.of_nat (List.length l))
  | PDict d => Ok (Z.of_nat (List.length d))
  | _ => Raise (TypeError ("object of type '" ++ type_name v ++ "' has no len()"))
  end.

End Py.

(** ** [datetime] and [re] *)

Module Datetime.

(** The fields of a [datetime] the program reads. *)
Record datetime : Type := { year : Z; month : Z; day : Z; hour : Z }.

(** The two readings of the wall clock at the time of a call:
    [datetime.now()] is local time; the reading in UTC is what
    [datetime.now(timezone.utc)] would give. *)
Record clock : Type := { local_now : datetime; utc_now : datetime }.

Definition is_leap (y : Z) : bool :=
  ((y mod 4 =? 0) && negb (y mod 100 =? 0)) || (y mod 400 =? 0).

Definition days_in_month (y m : Z) : Z :=
  if m =? 2 then (if is_leap y then 29 else 28)
  else if (m =? 4) || (m =? 6) || (m =? 9) || (m =? 11) then 30
  else 31.

(** [\d], and a digit for [int]: among the code points below 256, which
    are the characters of the texts held here, the decimal digits are 0 to
    9 alone.  Texts with other characters, among them the decimal digits
    Unicode has beyond 0 to 9, are outside these definitions. *)
Definition is_digit (c : ascii) : bool :=
  (48 <=? Py.code c) && (Py.code c <=? 57).

Definition digit_value (c : ascii) : Z := Py.code c - 48.

Definition is_dot (c : ascii) : bool := Py.code c =? 46.

(** [re.match(r"\d{2}\.\d{2}\.\d{4}", s)]: the pattern is looked for at the
    start of [s]; what follows the tenth character is not examined. *)
Definition date_pattern_match (s : string) : bool :=
  match list_ascii_of_string s with
  | d1 :: d2 :: p1 :: m1 :: m2 :: p2 :: y1 :: y2 :: y3 :: y4 :: _ =>
      is_digit d1 && is_digit d2 && is_dot p1 &&
      is_digit m1 && is_digit m2 && is_dot p2 &&
      is_digit y1 && is_digit y2 && is_digit y3 && is_digit y4
  | _ => false
  end.

(** The directives of [strptime], each a list of the ways it can match at
    the head of the text, in the order the alternatives are tried.
    [%d] is [3[0-1]|[1-2]\d|0[1-9]|[1-9]| [1-9]]. *)
Definition day_alts (cs : list ascii) : list (Z * list ascii) :=
  let two :=
    match cs with
    | c1 :: c2 :: rest =>
        let a := digit_value c1 in
        let b := digit_value c2 in
        if is_digit c1 && is_digit c2 &&
           (((a =? 3) && (b <=? 1)) || (a =? 1) || (a =? 2) ||
            ((a =? 0) && negb (b =? 0)))
        then [(10 * a + b, rest)] else []
    | _ => []
    end in
  let one :=
    match cs with
    | c1 :: rest =>
        if is_digit c1 && negb (digit_value c1 =? 0)
        then [(digit_value c1, rest)] else []
    | _ => []
    end in
  let blank :=
    match cs with
    | c0 :: c1 :: rest =>
        if (Py.code c0 =? 32) && is_digit c1 && negb (digit_value c1 =? 0)
        then [(digit_value c1, rest)] else []
    | _ => []
    end in
  two ++ one ++ blank.

(** [%m] is [1[0-2]|0[1-9]|[1-9]]. *)
Definition month_alts (cs : list ascii) : list (Z * list ascii) :=
  let two :=
    match cs with
    | c1 :: c2 :: rest =>
        let a := digit_value c1 in
        let b := digit_value c2 in
        if is_digit c1 && is_digit c2 &&
           (((a =? 1) && (b <=? 2)) || ((a =? 0) && negb (b =? 0)))
        then [(10 * a + b, rest)] else []
    | _ => []
    end in
  let one :=
    match cs with
    | c1 :: rest =>
        if is_digit c1 && negb (digit_value c1 =? 0)
        then [(digit_value c1, rest)] else []
    | _ => []
    end in
  two ++ one.

(** [%Y] is [\d\d\d\d]. *)
Definition year_alts (cs : list ascii) : list (Z * list ascii) :=
  match cs with
  | c1 :: c2 :: c3 :: c4 :: rest =>
      if is_digit c1 && is_digit c2 && is_digit c3 && is_digit c4
      then [(1000 * digit_value c1 + 100 * digit_value c2
             + 10 * digit_value c3 + digit_value c4, rest)]
      else []
  | _ => []
  end.

(** The first alternative whose continuation succeeds. *)
Fixpoint first_match {A B : Type} (alts : list (A * list ascii))
    (k : A -> list ascii -> option B) : option B :=
  match alts with
  | [] => None
  | (a, rest) :: more =>
      match k a rest with
      | Some b => Some b
      | None => first_match more k
      end
  end.

Definition expect_dot {B : Type} (cs : list ascii)
    (k : list ascii -> option B) : option B :=
  match cs with
  | c :: rest => if is_dot c then k rest else None
  | [] => None
  end.

(** The format ["%d.%m.%Y"] matched at the start of the text: day, month,
    year and the text left over. *)
Definition match_dmY (cs : list ascii) : option (Z * Z * Z * list ascii) :=
  first_match (day_alts cs) (fun d r1 =>
    expect_dot r1 (fun r2 =>
      first_match (month_alts r2) (fun m r3 =>
        expect_dot r3 (fun r4 =>
          first_match (year_alts r4) (fun y r5 => Some (d, m, y, r5)))))).

(** [datetime.strptime(s, "%d.%m.%Y")] *)
Definition strptime_dmY (s : string) : result datetime :=
  match match_dmY (list_ascii_of_string s) with
  | None =>
      Raise (ValueError ("time data " ++ Py.str_repr s
                         ++ " does not match format '%d.%m.%Y'"))
  | Some (d, m, y, rest) =>
      match rest with
      | _ :: _ =>
          Raise (ValueError ("unconverted data remains: "
                             ++ string_of_list_ascii rest))
      | [] =>
          if y =? 0 then Raise (ValueError "year 0 is out of range")
          else if days_in_month y m <? d
               then Raise (ValueError "day is out of range for month")
          else Ok {| year := y; month := m; day := d; hour := 0 |}
      end
  end.

(** [parsed == date.min]: a [datetime] and a [date] never compare equal. *)
Definition eq_date_min (parsed : datetime) : bool := false.

Fixpoint zero_pad (width : nat) (s : string) : string :=
  match width with
  | O => s
  | S w => if (String.length s <=? w)%nat then zero_pad w ("0" ++ s) else s
  end.

(** [d.strftime("%Y%m%d%H")] *)
Definition strftime_YmdH (d : datetime) : string :=
  zero_pad 4 (Py.nat_repr (year d)) ++ zero_pad 2 (Py.nat_repr (month d))
  ++ zero_pad 2 (Py.nat_repr (day d)) ++ zero_pad 2 (Py.nat_repr (hour d)).

End Datetime.

(** ** [random.sample] *)

Module Random.

(** The generator as a sequence of raw draws and the number already
    taken. *)
Record generator : Type := { entropy : nat -> nat; drawn : nat }.

(** [randbelow(n)]: some number below [n]. *)
Definition randbelow (g : generator) (n : nat) : nat * generator :=
  (Nat.modulo (entropy g (drawn g)) n,
   {| entropy := entropy g; drawn := S (drawn g) |}).

Fixpoint set_nth {A : Type} (j : nat) (x : A) (l : list A) : list A :=
  match l, j with
  | [], _ => []
  | _ :: rest, O => x :: rest
  | y :: rest, S j' => y :: set_nth j' x rest
  end.

(** The selection loop of [sample] on a pool of [n] live elements:
    [j = randbelow(n - i); result[i] = pool[j]; pool[j] = pool[n - i - 1]]. *)
Fixpoint pick (k : nat) (pool : list string) (n : nat) (g : generator)
    : list string * generator :=
  match k with
  | O => ([], g)
  | S k' =>
      let (j, g1) := randbelow g n in
      let chosen := nth j pool "" in
      let pool' := set_nth j (nth (n - 1) pool "") pool in
      let (rest, g2) := pick k' pool' (n - 1) g1 in
      (chosen :: rest, g2)
  end.

(** [random.sample(population, k)] for a population of at most 21
    elements, where the library copies the population into a pool. *)
Definition sample (population : list string) (k : nat) (g : generator)
    : result (list string) * generator :=
  if (List.length population <? k)%nat
  then (Raise (ValueError "Sample larger than population or is negative"), g)
  else let (chosen, g') := pick k population (List.length population) g in
       (Ok chosen, g').

End Random.

(* ===================================================================== *)
(** * scoring.py *)
(* ===================================================================== *)

Module Scoring.

Local Open Scope float_scope.

(** [get_score(store, phone, email, birthday, gender, first_name,
    last_name)] *)
Definition get_score
    (store phone email birthday gender first_name last_name : pyval) : float :=
  let score := 0.0 in
  let score := if Py.truthy phone then score + 1.5 else score in
  let score := if Py.truthy email then score + 1.5 else score in
  let score := if Py.truthy birthday && Py.truthy gender
               then score + 1.5 else score in
  let score := if Py.truthy first_name && Py.truthy last_name
               then score + 0.5 else score in
  score.

Definition interests : list string :=
  [ "cars"; "pets"; "travel"; "hi-tech"; "sport"; "music"; "books"; "tv";
    "cinema"; "geek"; "otus" ]%string.

(** [get_interests(store, cid)] *)
Definition get_interests (store cid : pyval) (g : Random.generator)
    : result (list string) * Random.generator :=
  Random.sample interests 2 g.

End Scoring.

(* ===================================================================== *)
(** * models.py *)
(* ===================================================================== *)

Definition SALT : string := "Otus".
Definition ADMIN_LOGIN : string := "admin".
Definition ADMIN_SALT : string := "42".

(** ** Field validators *)

Inductive kind : Type :=
| CharField
| ArgumentsField
| EmailField
| PhoneField
| DateField
| BirthDayField
| GenderField
| ClientIDsField.

(** What [__init__] and [__set_name__] leave on a validator object. *)
Record descriptor : Type :=
  { field_kind : kind; required : bool; nullable : bool; name : string }.

(** The pair [(is_valid, error)] a validator returns. *)
Definition verdict : Type := (bool * option string)%type.

Module Validators.

Definition CharField_validate (self : descriptor) (value : pyval) : verdict :=
  if required self && Py.is_none value then
    (false, Some (name self ++ " is required"))
  else if negb (required self) && Py.is_none value then
    (true, None)
  else if negb (Py.is_str value) then
    (false, Some (name self ++ " must be a string"))
  else if negb (nullable self) && Py.eq_str value "" then
    (false, Some (name self ++ " must be a non empty string"))
  else (true, None).

Definition ArgumentsField_validate (self : descriptor) (value : pyval) : verdict :=
  if required self && Py.is_none value then
    (false, Some (name self ++ " is required"))
  else if negb (Py.is_dict value) then
    (false, Some (name self ++ " must be a dictionary"))
  else if negb (nullable self) && Py.eq_empty_dict value then
    (false, Some (name self ++ " must be a non empty dictionary"))
  else (true, None).

Definition EmailField_validate (self : descriptor) (value : pyval) : verdict :=
  let '(is_valid, error) := CharField_validate self value in
  if negb is_valid then (is_valid, error)
  else
    let value := Py.str value in
    if negb (Py.contains_char "@" value) then
      (false, Some (name self ++ " must be a valid email"))
    else (true, None).

Definition PhoneField_validate (self : descriptor) (value : pyval) : verdict :=
  if required self && Py.is_none value then
    (false, Some (name self ++ " is required"))
  else if negb (Py.is_str value) && negb (Py.is_int value) then
    (false, Some (name self ++ " must be a string or an integer"))
  else if Py.is_int value then
    let parsed_value := Py.int_value value in
    if negb (nullable self) && (parsed_value =? 0) then
      (false, Some (name self ++ " must be a non emptyvalid phone number"))
    else if (parsed_value <? 70000000000) || (parsed_value >? 79999999999) then
      (false, Some (name self ++ " must be a valid phone number"))
    else (true, None)
  else
    let value := Py.str value in
    if negb (nullable self) && String.eqb value "" then
      (false, Some (name self ++ " must be a non empty valid phone number"))
    else if negb (Py.startswith value "7") || negb (Py.len value =? 11) then
      (false, Some (name self ++ " must be a valid phone number"))
    else (true, None).

(** [strptime] raises on text it cannot convert, so the validators of
    dates have results, not plain verdicts. *)
Definition DateField_validate (self : descriptor) (value : pyval)
    : result verdict :=
  if required self && Py.is_none value then
    Ok (false, Some (name self ++ " is required"))
  else
    let value := Py.str value in
    if negb (Datetime.date_pattern_match value) then
      Ok (false, Some (name self ++ " must be a valid date"))
    else
      match Datetime.strptime_dmY value with
      | Raise e => Raise e
      | Ok parsed_date =>
          if negb (nullable self) && Datetime.eq_date_min parsed_date then
            Ok (false, Some (name self ++ " must be a non empty date"))
          else Ok (true, None)
      end.

Definition BirthDayField_validate (now : Datetime.datetime)
    (self : descriptor) (value : pyval) : result verdict :=
  match DateField_validate self value with
  | Raise e => Raise e
  | Ok (is_valid, error) =>
      if negb is_valid then Ok (is_valid, error)
      else
        let value := Py.str value in
        match Datetime.strptime_dmY value with
        | Raise e => Raise e
        | Ok parsed_date =>
            if negb (Datetime.year parsed_date >? Datetime.year now - 70) then
              Ok (false, Some (name self ++ " must be less than 70 years old"))
            else Ok (true, None)
        end
  end.

Definition GenderField_validate (self : descriptor) (value : pyval) : verdict :=
  if required self && Py.is_none value then
    (false, Some (name self ++ " is required"))
  else if negb (Py.is_int value) then
    (false, Some (name self ++ " must be an integer"))
  else if negb (existsb (Z.eqb (Py.int_value value)) [0; 1; 2]) then
    (false, Some (name self ++ " must be 0, 1 or 2"))
  else (true, None).

Definition ClientIDsField_validate (self : descriptor) (value : pyval) : verdict :=
  if required self && Py.is_none value then
    (false, Some (name self ++ " is required"))
  else if negb (Py.is_list value)
          || negb (match value with
                   | PList items => forallb Py.is_int items
                   | _ => false
                   end) then
    (false, Some (name self ++ " must be a list of integers"))
  else if negb (nullable self) && Py.eq_empty_list value then
    (false, Some (name self ++ " must be a non empty list of integers"))
  else (true, None).

(** [self.validate(value)]: the method of the validator's class. *)
Definition validate (now : Datetime.datetime) (self : descriptor)
    (value : pyval) : result verdict :=
  match field_kind self with
  | CharField => Ok (CharField_validate self value)
  | ArgumentsField => Ok (ArgumentsField_validate self value)
  | EmailField => Ok (EmailField_validate self value)
  | PhoneField => Ok (PhoneField_validate self value)
  | DateField => DateField_validate self value
  | BirthDayField => BirthDayField_validate now self value
  | GenderField => Ok (GenderField_validate self value)
  | ClientIDsField => Ok (ClientIDsField_validate self value)
  end.

End Validators.

(** ** The world a call runs in *)

(** One validator object per class attribute.  The object keeps the
    current value itself ([self.value]), so every instance of a class reads
    and writes the same cell. *)
Inductive field : Type :=
| MR_account | MR_login | MR_method | MR_token | MR_arguments
| OS_phone | OS_email | OS_first_name | OS_last_name | OS_birthday | OS_gender
| CI_client_ids | CI_date.

Definition field_eq_dec (f g : field) : {f = g} + {f <> g}.
Proof. decide equality. Defined.

(** The class bodies of [MethodRequest], [OnlineScoreRequest] and
    [ClientsInterestsRequest]. *)
Definition descriptor_of (f : field) : descriptor :=
  match f with
  | MR_account => {| field_kind := CharField; required := false; nullable := true; name := "account" |}
  | MR_login => {| field_kind := CharField; required := true; nullable := true; name := "login" |}
  | MR_method => {| field_kind := CharField; required := true; nullable := false; name := "method" |}
  | MR_token => {| field_kind := CharField; required := true; nullable := true; name := "token" |}
  | MR_arguments => {| field_kind := ArgumentsField; required := true; nullable := true; name := "arguments" |}
  | OS_phone => {| field_kind := PhoneField; required := false; nullable := true; name := "phone" |}
  | OS_email => {| field_kind := EmailField; required := false; nullable := true; name := "email" |}
  | OS_first_name => {| field_kind := CharField; required := false; nullable := true; name := "first_name" |}
  | OS_last_name => {| field_kind := CharField; required := false; nullable := true; name := "last_name" |}
  | OS_birthday => {| field_kind := BirthDayField; required := false; nullable := true; name := "birthday" |}
  | OS_gender => {| field_kind := GenderField; required := false; nullable := true; name := "gender" |}
  | CI_client_ids => {| field_kind := ClientIDsField; required := true; nullable := false; name := "client_ids" |}
  | CI_date => {| field_kind := DateField; required := false; nullable := true; name := "date" |}
  end.

Record world : Type :=
  { now : Datetime.clock;          (* the wall clock *)
    values : field -> pyval;       (* [self.value] of each validator object *)
    ctx : dict;                    (* the context dict handed to the dispatcher *)
    rng : Random.generator }.      (* the module-level random generator *)

(** Every validator object starts with [self.value = None]. *)
Definition initial_values : field -> pyval := fun _ => PNone.

Definition set_value (w : world) (f : field) (v : pyval) : world :=
  {| now := now w;
     values := fun g => if field_eq_dec g f then v else values w g;
     ctx := ctx w;
     rng := rng w |}.

Definition set_ctx (w : world) (c : dict) : world :=
  {| now := now w; values := values w; ctx := c; rng := rng w |}.

Definition set_rng (w : world) (g : Random.generator) : world :=
  {| now := now w; values := values w; ctx := ctx w; rng := g |}.

(** Computations that read and write the world and may raise; what was
    written before an exception stays written. *)
Definition M (A : Type) : Type := world -> result A * world.

Definition ret {A : Type} (a : A) : M A := fun w => (Ok a, w).

Definition raise {A : Type} (e : exn) : M A := fun w => (Raise e, w).

Definition bind {A B : Type} (c : M A) (k : A -> M B) : M B :=
  fun w =>
    match c w with
    | (Ok a, w') => k a w'
    | (Raise e, w') => (Raise e, w')
    end.

Definition lift {A : Type} (r : result A) : M A := fun w => (r, w).

(** [try: body  except ValueError as e: handler(str(e))] *)
Definition try_except_ValueError {A : Type} (body : M A)
    (handler : string -> M A) : M A :=
  fun w =>
    match body w with
    | (Raise (ValueError msg), w') => handler msg w'
    | other => other
    end.

Declare Scope monad_scope.
Delimit Scope monad_scope with monad.
Notation "x <- c ;; k" := (bind c (fun x => k))
  (at level 61, c at next level, right associativity) : monad_scope.
Notation "c ;; k" := (bind c (fun _ => k))
  (at level 61, right associativity) : monad_scope.
Local Open Scope monad_scope.

(** ** BaseValidatedField *)

(** [__get__]: the value kept on the validator object. *)
Definition descriptor_get (f : field) : M pyval :=
  fun w => (Ok (values w f), w).

(** [__set__]: validate, raise [ValueError] on a verdict of failure,
    otherwise keep the value. *)
Definition descriptor_set (f : field) (value : pyval) : M unit :=
  fun w =>
    let self := descriptor_of f in
    match Validators.validate (Datetime.local_now (now w)) self value with
    | Raise e => (Raise e, w)
    | Ok (is_valid, error) =>
        if negb is_valid then
          (Raise (ValueError ("Invalid field value for " ++ name self ++ ": "
                              ++ Py.str_opt error)), w)
        else (Ok tt, set_value w f value)
    end.

(** ** ClientsInterestsRequest *)

(** The dict a comprehension builds, keyed by client identifiers. *)
Definition mapping : Type := list (pyval * list string).

(** [m[key] = v] for integer keys: equal numbers are one key, which keeps
    the place and the key object of its first insertion. *)
Fixpoint mapping_set (m : mapping) (key : pyval) (v : list string) : mapping :=
  match m with
  | [] => [(key, v)]
  | (k, x) :: rest =>
      if Py.int_value k =? Py.int_value key then (k, v) :: rest
      else (k, x) :: mapping_set rest key v
  end.

Module ClientsInterestsRequest.

Definition init (data : pyval) : M unit :=
  client_ids <- lift (Py.get data "client_ids" PNone) ;;
  descriptor_set CI_client_ids client_ids ;;
  date <- lift (Py.get data "date" PNone) ;;
  descriptor_set CI_date date.

(** The loop of the comprehension over the identifiers. *)
Fixpoint collect (ids : list pyval) (acc : mapping) : M mapping :=
  match ids with
  | [] => ret acc
  | client_id :: rest =>
      fun w =>
        match Scoring.get_interests PNone client_id (rng w) with
        | (Raise e, g) => (Raise e, set_rng w g)
        | (Ok tags, g) => collect rest (mapping_set acc client_id tags) (set_rng w g)
        end
  end.

Definition execute : M mapping :=
  client_ids <- descriptor_get CI_client_ids ;;
  match client_ids with
  | PList ids => collect ids []
  | _ => raise (TypeError "object is not iterable")
  end.

End ClientsInterestsRequest.

(** ** OnlineScoreRequest *)

Inductive number : Type :=
| NInt (n : Z)
| NFloat (f : float).

(** What the dispatcher hands back as [response]: a message, the dict
    [{"score": n}], or the dict of interests. *)
Inductive payload : Type :=
| Message (text : string)
| ScoreDict (score : number)
| InterestsDict (m : mapping).

Module OnlineScoreRequest.

Definition init (data : pyval) : M unit :=
  phone <- lift (Py.get data "phone" PNone) ;;
  descriptor_set OS_phone phone ;;
  email <- lift (Py.get data "email" PNone) ;;
  descriptor_set OS_email email ;;
  first_name <- lift (Py.get data "first_name" PNone) ;;
  descriptor_set OS_first_name first_name ;;
  last_name <- lift (Py.get data "last_name" PNone) ;;
  descriptor_set OS_last_name last_name ;;
  birthday <- lift (Py.get data "birthday" PNone) ;;
  descriptor_set OS_birthday birthday ;;
  gender <- lift (Py.get data "gender" PNone) ;;
  descriptor_set OS_gender gender.

Definition validate : M bool :=
  phone <- descriptor_get OS_phone ;;
  email <- descriptor_get OS_email ;;
  if Py.truthy phone && Py.truthy email then ret true
  else
    first_name <- descriptor_get OS_first_name ;;
    last_name <- descriptor_get OS_last_name ;;
    if Py.truthy first_name && Py.truthy last_name then ret true
    else
      gender <- descriptor_get OS_gender ;;
      birthday <- descriptor_get OS_birthday ;;
      if Py.truthy gender && Py.truthy birthday then ret true
      else ret false.

Definition execute : M payload :=
  ok <- validate ;;
  if negb ok then raise (ValueError "Invalid arguments")
  else
    phone <- descriptor_get OS_phone ;;
    email <- descriptor_get OS_email ;;
    first_name <- descriptor_get OS_first_name ;;
    last_name <- descriptor_get OS_last_name ;;
    birthday <- descriptor_get OS_birthday ;;
    gender <- descriptor_get OS_gender ;;
    ret (ScoreDict (NFloat (Scoring.get_score PNone phone email birthday
                                              gender first_name last_name))).

(** The class and its base define [__init__], [validate], [execute] and
    the six fields; there is no [get_fields], so looking it up raises. *)
Definition get_fields : M pyval :=
  raise (AttributeError
           "'OnlineScoreRequest' object has no attribute 'get_fields'").

End OnlineScoreRequest.

(** ** MethodRequest *)

Module MethodRequest.

(** The instance keeps [self.body]; its five fields live on the class. *)
Record instance : Type := { body : pyval }.

Definition init (data : dict) : M instance :=
  let body := Py.dict_get data "body" (PDict []) in
  account <- lift (Py.get body "account" PNone) ;;
  descriptor_set MR_account account ;;
  login <- lift (Py.get body "login" PNone) ;;
  descriptor_set MR_login login ;;
  token <- lift (Py.get body "token" PNone) ;;
  descriptor_set MR_token token ;;
  arguments <- lift (Py.get body "arguments" PNone) ;;
  descriptor_set MR_arguments arguments ;;
  method <- lift (Py.get body "method" PNone) ;;
  descriptor_set MR_method method ;;
  ret {| body := body |}.

Definition is_admin : M bool :=
  login <- descriptor_get MR_login ;;
  ret (Py.eq_str login ADMIN_LOGIN).

(** [text.encode("utf-8")] then [hashlib.sha512(...).hexdigest()]. *)
Definition digest_of (text : pyval) : M string :=
  match text with
  | PStr s => ret (Hashlib.sha512_hexdigest s)
  | _ => raise (Py.no_attribute text "encode")
  end.

Definition check_auth : M bool :=
  admin <- is_admin ;;
  digest <-
    (if admin then
       fun w =>
         digest_of (PStr (Datetime.strftime_YmdH (Datetime.local_now (now w))
                          ++ ADMIN_SALT)) w
     else
       account <- descriptor_get MR_account ;;
       let account := if Py.truthy account then account else PStr "" in
       login <- descriptor_get MR_login ;;
       s <- lift (Py.add account login) ;;
       s <- lift (Py.add s (PStr SALT)) ;;
       digest_of s) ;;
  token <- descriptor_get MR_token ;;
  ret (Py.eq_str token digest).

End MethodRequest.

(* ===================================================================== *)
(** * api.py *)
(* ===================================================================== *)

Module Api.

Definition OK : Z := 200.
Definition BAD_REQUEST : Z := 400.
Definition FORBIDDEN : Z := 403.
Definition NOT_FOUND : Z := 404.
Definition INVALID_REQUEST : Z := 422.
Definition INTERNAL_ERROR : Z := 500.

Definition ERRORS (code : Z) : option string :=
  if code =? BAD_REQUEST then Some "Bad Request"
  else if code =? FORBIDDEN then Some "Forbidden"
  else if code =? NOT_FOUND then Some "Not Found"
  else if code =? INVALID_REQUEST then Some "Invalid Request"
  else if code =? INTERNAL_ERROR then Some "Internal Server Error"
  else None.

(** [ctx[key] = v] *)
Definition ctx_setitem (key : string) (v : pyval) : M unit :=
  fun w => (Ok tt, set_ctx w (Py.dict_set (ctx w) key v)).

(** The dispatcher, given what looking up and calling [get_fields] on the
    score request does.  The first [try] leaves either the envelope or the
    pair returned by its [except] clause. *)
Definition method_handler_with (get_fields : M pyval) (request : dict)
    : M (payload * Z) :=
  constructed <-
    try_except_ValueError
      (method_request <- MethodRequest.init request ;; ret (inl method_request))
      (fun e => ret (inr (Message e, INVALID_REQUEST))) ;;
  match constructed with
  | inr early => ret early
  | inl method_request =>
      authorised <- MethodRequest.check_auth ;;
      if negb authorised then ret (Message "Forbidden", FORBIDDEN)
      else
        try_except_ValueError
          (method <- descriptor_get MR_method ;;
           if Py.eq_str method "online_score" then
             arguments <- descriptor_get MR_arguments ;;
             OnlineScoreRequest.init arguments ;;
             has <- get_fields ;;
             ctx_setitem "has" has ;;
             admin <- MethodRequest.is_admin ;;
             if admin then ret (ScoreDict (NInt 42), OK)
             else
               response <- OnlineScoreRequest.execute ;;
               ret (response, OK)
           else if Py.eq_str method "clients_interests" then
             arguments <- descriptor_get MR_arguments ;;
             ClientsInterestsRequest.init arguments ;;
             client_ids <- descriptor_get CI_client_ids ;;
             nclients <- lift (Py.len_of client_ids) ;;
             ctx_setitem "nclients" (PInt nclients) ;;
             response <- ClientsInterestsRequest.execute ;;
             ret (InterestsDict response, OK)
           else ret (Message "Invalid method", INVALID_REQUEST))
          (fun e => ret (Message e, INVALID_REQUEST))
  end.

(** [method_handler(request, ctx, store)] with the classes as they are. *)
Definition method_handler (request : dict) : M (payload * Z) :=
  method_handler_with OnlineScoreRequest.get_fields request.

(** What [do_POST] writes back for a decoded body sent to the path
    [method]. *)
Inductive reply : Type :=
| Response (response : payload) (code : Z)
| Error (error : payload) (code : Z).

Definition payload_truthy (p : payload) : bool :=
  match p with
  | Message text => negb (String.eqb text "")
  | ScoreDict _ => true
  | InterestsDict m => match m with [] => false | _ => true end
  end.

(** [response, code = {}, OK], the call of the handler under
    [except Exception], and the choice between the two shapes of body. *)
Definition do_POST_reply (request : dict) (w : world) : reply * world :=
  match method_handler request w with
  | (Raise _, w') => (Error (Message "Internal Server Error") INTERNAL_ERROR, w')
  | (Ok (response, code), w') =>
      match ERRORS code with
      | None => (Response response code, w')
      | Some default =>
          (Error (if payload_truthy response then response else Message default)
                 code, w')
      end
  end.

End Api.

(** ** MainHTTPHandler *)

Module MainHTTPHandler.

(** [path.strip("/")]: the slashes at both ends are dropped. *)
Fixpoint lstrip_slash (cs : list ascii) : list ascii :=
  match cs with
  | c :: rest => if Py.code c =? 47 then lstrip_slash rest else cs
  | [] => []
  end.

Definition strip_slash (path : string) : string :=
  string_of_list_ascii
    (rev (lstrip_slash (rev (lstrip_slash (list_ascii_of_string path))))).

(** [router = {"method": method_handler}] *)
Definition router (path : string) : option (dict -> M (payload * Z)) :=
  if String.eqb path "method" then Some Api.method_handler else None.

(** [do_POST] from the decoded body to the reply it writes.  [request] is
    [None] when reading or decoding the body raised; [request_id] is the
    identifier the context starts with.  The handler receives a fresh
    context and the dict with the body under the key body (the headers it
    is also given are never read). *)
Definition do_POST (request_id : string) (request : option pyval)
    (path : string) (w : world) : Api.reply * world :=
  let w := set_ctx w [("request_id", PStr request_id)] in
  match request with
  | Some body =>
      if Py.truthy body then
        match router (strip_slash path) with
        | Some _ => Api.do_POST_reply [("body", body)] w
        | None => (Api.Error (Message "Not Found") Api.NOT_FOUND, w)
        end
      else (Api.Error (Message "Invalid request") Api.BAD_REQUEST, w)
  | None => (Api.Error (Message "Invalid request") Api.BAD_REQUEST, w)
  end.

End MainHTTPHandler.

(* ===================================================================== *)
(** * Worlds used in the examples *)
(* ===================================================================== *)

(** The hour [h] of day [d] of month [m] of year [y]. *)
Definition at_hour (y m d h : Z) : Datetime.datetime :=
  {| Datetime.year := y; Datetime.month := m; Datetime.day := d;
     Datetime.hour := h |}.

(** A server three hours east of Greenwich, early afternoon. *)
Definition example_clock : Datetime.clock :=
  {| Datetime.local_now := at_hour 2026 11 3 13;
     Datetime.utc_now := at_hour 2026 11 3 10 |}.

(** Some sequence of draws. *)
Definition example_rng : Random.generator :=
  {| Random.entropy := fun n => (7 * n + 3)%nat; Random.drawn := 0 |}.

(** The world of a freshly started process. *)
Definition fresh_world : world :=
  {| now := example_clock; values := initial_values; ctx := [];
     rng := example_rng |}.

(** A world whose validator objects hold the listed values. *)
Definition world_with (cells : list (field * pyval)) : world :=
  fold_left (fun w cell => set_value w (fst cell) (snd cell)) cells fresh_world.

(* ===================================================================== *)
(** * Vocabulary of the properties *)
(* ===================================================================== *)

(** Every character of a text passes a test. *)
Fixpoint all_chars (p : ascii -> bool) (s : string) : bool :=
  match s with
  | EmptyString => true
  | String c rest => p c && all_chars p rest
  end.

(** Arguments for interests with a valid list of clients and no date. *)
Definition interests_arguments_without_date : pyval :=
  PDict [("client_ids", PList [PInt 1; PInt 2; PInt 3])].

(** Arguments for a score that give the two names only. *)
Definition score_arguments_names_only : pyval :=
  PDict [("first_name", PStr "a"); ("last_name", PStr "b")].

(** The characters of the decimal text of an integer. *)
Definition digit_or_minus (c : ascii) : bool :=
  Datetime.is_digit c || (Py.code c =? 45).



(** The reading of the source: [a and b] asks whether both are true
    values, and [None], empty text and 0 are not. *)
Definition some_pair_truthy (w : world) : bool :=
  (Py.truthy (values w OS_phone) && Py.truthy (values w OS_email))
  || (Py.truthy (values w OS_first_name) && Py.truthy (values w OS_last_name))
  || (Py.truthy (values w OS_gender) && Py.truthy (values w OS_birthday)).

(** The score of the values the fields hold. *)
Definition score_of (w : world) : float :=
  Scoring.get_score PNone (values w OS_phone) (values w OS_email)
    (values w OS_birthday) (values w OS_gender)
    (values w OS_first_name) (values w OS_last_name).

(** Birthday and a gender of 0 held by the fields, nothing else. *)
Definition gender_zero_world : world :=
  world_with [(OS_birthday, PStr "01.01.2000"); (OS_gender, PInt 0)].

(** The digits 0-9 and the letters a-f. *)
Definition is_lower_hex (c : ascii) : bool :=
  let n := Py.code c in
  ((48 <=? n) && (n <=? 57)) || ((97 <=? n) && (n <=? 102)).

(** The five fields of [MethodRequest]. *)
Definition is_envelope_field (f : field) : bool :=
  match f with
  | MR_account | MR_login | MR_method | MR_token | MR_arguments => true
  | _ => false
  end.

(** [account or ''], as text. *)
Definition account_text (w : world) : string :=
  match values w MR_account with
  | PStr a => a
  | _ => ""
  end.

(** The text the source hashes: for the administrator the hour of
    [datetime.now()], which is local time. *)
Definition auth_material (w : world) (login : string) : string :=
  if String.eqb login ADMIN_LOGIN
  then Datetime.strftime_YmdH (Datetime.local_now (now w)) ++ ADMIN_SALT
  else (account_text w ++ login) ++ SALT.

(** The text the specification names: for the administrator the hour in
    UTC. *)
Definition spec_auth_material (w : world) (login : string) : string :=
  if String.eqb login ADMIN_LOGIN
  then Datetime.strftime_YmdH (Datetime.utc_now (now w)) ++ ADMIN_SALT
  else (account_text w ++ login) ++ SALT.

(** Requests used in the examples. *)
Definition envelope (login token method : string) (arguments : dict) : dict :=
  [("body", PDict [("login", PStr login); ("token", PStr token);
                   ("method", PStr method); ("arguments", PDict arguments)])].

(** The administrator's token at 13 h local time on 3 November 2026. *)
Definition admin_token : string :=
  Eval vm_compute in Hashlib.sha512_hexdigest "202611031342".

(** The token of login [h&f] without account. *)
Definition user_token : string :=
  Eval vm_compute in Hashlib.sha512_hexdigest "h&fOtus".

(** Arguments for a score in which every field is given and valid. *)
Definition valid_score_arguments : dict :=
  [("phone", PStr "79175002040"); ("email", PStr "stupnikov@otus.ru");
   ("first_name", PStr "a"); ("last_name", PStr "b");
   ("birthday", PStr "01.01.1990"); ("gender", PInt 1)].

(** Two different tags of the vocabulary. *)
Definition two_distinct_tags (tags : list string) : bool :=
  match tags with
  | [a; b] =>
      negb (String.eqb a b)
      && existsb (String.eqb a) Scoring.interests
      && existsb (String.eqb b) Scoring.interests
  | _ => false
  end.

(** What the two draws [j0] and [j1] select. *)
Definition selection (j0 j1 : nat) : list string :=
  [ nth j0 Scoring.interests "";
    nth j1 (Random.set_nth j0 (nth 10 Scoring.interests "") Scoring.interests) "" ].

(** Arguments for interests that construct. *)
Definition interests_arguments : pyval :=
  PDict [("client_ids", PList [PInt 1; PInt 2; PInt 3]);
         ("date", PStr "19.07.2017")].

(** A date of the calendar, years 1 to 9999. *)
Definition calendar_date (d m y : Z) : Prop :=
  1 <= y <= 9999 /\ 1 <= m <= 12 /\ 1 <= d <= Datetime.days_in_month y m.

(** A number below 100 on two digits and one below 10000 on four. *)
Definition two_digits (n : Z) : string :=
  String (Py.digit (n / 10)) (String (Py.digit (n mod 10)) "").

Definition four_digits (n : Z) : string :=
  String (Py.digit (n / 1000))
    (String (Py.digit (n / 100 mod 10))
       (String (Py.digit (n / 10 mod 10)) (String (Py.digit (n mod 10)) ""))).

(** The date written DD.MM.YYYY. *)
Definition date_text (d m y : Z) : string :=
  two_digits d ++ "." ++ two_digits m ++ "." ++ four_digits y.

(** The test [%d] makes on two digits, and the one [%m] makes. *)
Definition day_guard (a b : Z) : bool :=
  ((a =? 3) && (b <=? 1)) || (a =? 1) || (a =? 2) || ((a =? 0) && negb (b =? 0)).

Definition month_guard (a b : Z) : bool :=
  ((a =? 1) && (b <=? 2)) || ((a =? 0) && negb (b =? 0)).

(** The numbers of a list in the order they first occur, which is the
    order of the keys of a dict filled from the list. *)
Fixpoint first_seen_into (seen : list Z) (l : list Z) : list Z :=
  match l with
  | [] => seen
  | x :: rest =>
      first_seen_into (if existsb (Z.eqb x) seen then seen else seen ++ [x]) rest
  end.

Definition first_seen (l : list Z) : list Z := first_seen_into [] l.

(** The keys of a dict of interests, as numbers. *)
Definition mapping_keys (m : mapping) : list Z :=
  map (fun kv => Py.int_value (fst kv)) m.

(** [n] slashes. *)
Fixpoint slashes (n : nat) : string :=
  match n with
  | O => ""
  | S n' => String "/" (slashes n')
  end.

(** The statuses [do_POST] answers an error with. *)
Definition is_error_status (code : Z) : bool :=
  existsb (Z.eqb code) [Api.BAD_REQUEST; Api.FORBIDDEN; Api.NOT_FOUND;
                        Api.INVALID_REQUEST; Api.INTERNAL_ERROR].

(* ===================================================================== *)
(** * Properties of the scoring engine *)
(* ===================================================================== *)

Section ScoringFacts.

Local Open Scope float_scope.

(** The score is a function of four tests only. *)
Lemma get_score_by_cases store phone email birthday gender first_name last_name :
  Scoring.get_score store phone email birthday gender first_name last_name =
  (let s := if Py.truthy phone then 0.0 + 1.5 else 0.0 in
   let s := if Py.truthy email then s + 1.5 else s in
   let s := if Py.truthy birthday && Py.truthy gender then s + 1.5 else s in
   if Py.truthy first_name && Py.truthy last_name then s + 0.5 else s).
Proof. reflexivity. Qed.

(** C1, as the specification words it, fails for the pair of contact
    fields: a phone and an email alone score 3.0, not 1.5; with all six
    fields the score is 5.0, not 3.5. *)
Lemma C1_phone_email_score_is_not_1_5 :
  Scoring.get_score PNone (PStr "79175002040") (PStr "stupnikov@otus.ru")
                    PNone PNone PNone PNone <> 1.5
  /\ Scoring.get_score PNone (PStr "79175002040") (PStr "stupnikov@otus.ru")
                       (PStr "01.01.2000") (PInt 1) (PStr "a") (PStr "b") <> 3.5.
Proof.
  split; intros H;
    apply (f_equal (fun x => PrimFloat.eqb x 3.0 || PrimFloat.eqb x 5.0)) in H;
    vm_compute in H; discriminate.
Qed.

(** C1 (amended): counting a field as given when its value is true in
    Python's sense (not [None], not the empty text, not 0), the score is
    0.5 when only first_name and last_name are given, 3.0 when only phone
    and email are given (1.5 for each of the two), and, when phone, email,
    birthday, first_name and last_name are all given, 5.0 with a gender
    that is given too (phone 1.5, email 1.5, the birthday and gender pair
    1.5, the name pair 0.5) and 3.5 with a gender of 0, for which the
    birthday and gender pair earns nothing. *)
Theorem C1_get_score_values (store : pyval) :
  (forall first_name last_name,
     Py.truthy first_name = true -> Py.truthy last_name = true ->
     Scoring.get_score store PNone PNone PNone PNone first_name last_name = 0.5)
  /\ (forall phone email,
        Py.truthy phone = true -> Py.truthy email = true ->
        Scoring.get_score store phone email PNone PNone PNone PNone = 3.0)
  /\ (forall phone email birthday gender first_name last_name,
        Py.truthy phone = true -> Py.truthy email = true ->
        Py.truthy birthday = true -> Py.truthy gender = true ->
        Py.truthy first_name = true -> Py.truthy last_name = true ->
        Scoring.get_score store phone email birthday gender first_name last_name
        = 5.0)
  /\ (forall phone email birthday first_name last_name,
        Py.truthy phone = true -> Py.truthy email = true ->
        Py.truthy birthday = true ->
        Py.truthy first_name = true -> Py.truthy last_name = true ->
        Scoring.get_score store phone email birthday (PInt 0)
                          first_name last_name
        = 3.5).
Proof.
  split; [|split; [|split]].
  - intros f l Hf Hl. rewrite get_score_by_cases, Hf, Hl. reflexivity.
  - intros p e Hp He. rewrite get_score_by_cases, Hp, He. reflexivity.
  - intros p e b g f l Hp He Hb Hg Hf Hl.
    rewrite get_score_by_cases, Hp, He, Hb, Hg, Hf, Hl. reflexivity.
  - intros p e b f l Hp He Hb Hf Hl.
    rewrite get_score_by_cases, Hp, He, Hb, Hf, Hl. reflexivity.
Qed.

Lemma C1_get_score_values_witness :
  Scoring.get_score PNone PNone PNone PNone PNone (PStr "a") (PStr "b") = 0.5
  /\ Scoring.get_score PNone (PInt 79175002040) (PStr "a@b") PNone PNone
                       PNone PNone = 3.0
  /\ Scoring.get_score PNone (PInt 79175002040) (PStr "a@b")
                       (PStr "01.01.2000") (PInt 1) (PStr "a") (PStr "b") = 5.0
  /\ Scoring.get_score PNone (PInt 79175002040) (PStr "a@b")
                       (PStr "01.01.2000") (PInt 0) (PStr "a") (PStr "b") = 3.5.
Proof.
  destruct (C1_get_score_values PNone) as (Hnames & Hcontacts & Hall & Hzero).
  refine (conj (Hnames (PStr "a") (PStr "b") _ _)
            (conj (Hcontacts (PInt 79175002040) (PStr "a@b") _ _)
               (conj (Hall (PInt 79175002040) (PStr "a@b") (PStr "01.01.2000")
                           (PInt 1) (PStr "a") (PStr "b") _ _ _ _ _ _)
                     (Hzero (PInt 79175002040) (PStr "a@b") (PStr "01.01.2000")
                            (PStr "a") (PStr "b") _ _ _ _ _))));
    reflexivity.
Defined.

(** C10, scoring half: a gender of 0 earns what an absent gender earns,
    which is what the request earns without birthday and gender. *)
Lemma get_score_gender_zero store phone email birthday first_name last_name :
  Scoring.get_score store phone email birthday (PInt 0) first_name last_name
  = Scoring.get_score store phone email birthday PNone first_name last_name
  /\ Scoring.get_score store phone email birthday (PInt 0) first_name last_name
     = Scoring.get_score store phone email PNone PNone first_name last_name.
Proof.
  rewrite !get_score_by_cases. cbn [Py.truthy Z.eqb negb andb].
  rewrite !andb_false_r. split; reflexivity.
Qed.

End ScoringFacts.

(* ===================================================================== *)
(** * Reasoning about computations in [M] *)
(* ===================================================================== *)

Section MonadFacts.

Context {A B : Type}.

Lemma bind_ok (c : M A) (k : A -> M B) w b w' :
  bind c k w = (Ok b, w') ->
  exists a w1, c w = (Ok a, w1) /\ k a w1 = (Ok b, w').
Proof.
  unfold bind. destruct (c w) as [[a|e] w1]; intros H.
  - exists a, w1. split; [reflexivity | exact H].
  - discriminate.
Qed.

Lemma bind_step (c : M A) (k : A -> M B) w a w1 :
  c w = (Ok a, w1) -> bind c k w = k a w1.
Proof. unfold bind. intros ->. reflexivity. Qed.

Lemma bind_raise (c : M A) (k : A -> M B) w e w1 :
  c w = (Raise e, w1) -> bind c k w = (Raise e, w1).
Proof. unfold bind. intros ->. reflexivity. Qed.

Lemma lift_ok (r : result A) w a w' :
  lift r w = (Ok a, w') -> r = Ok a /\ w' = w.
Proof. unfold lift. intros H. inversion H. split; reflexivity. Qed.

End MonadFacts.

Lemma values_set_same w f v : values (set_value w f v) f = v.
Proof. cbn. destruct (field_eq_dec f f); [reflexivity | contradiction]. Qed.

Lemma values_set_other w f g v : g <> f -> values (set_value w f v) g = values w g.
Proof. intros Hne. cbn. destruct (field_eq_dec g f); [contradiction | reflexivity]. Qed.

Lemma descriptor_set_ok f v w u w' :
  descriptor_set f v w = (Ok u, w') ->
  w' = set_value w f v /\
  exists e, Validators.validate (Datetime.local_now (now w)) (descriptor_of f) v
            = Ok (true, e).
Proof.
  unfold descriptor_set.
  destruct (Validators.validate _ _ v) as [[[|] e]|e]; cbn; intros H;
    inversion H; subst.
  split; [reflexivity | exists e; reflexivity].
Qed.

(** A failed assignment leaves the world as it was. *)
Lemma descriptor_set_raise f v w e w' :
  descriptor_set f v w = (Raise e, w') -> w' = w.
Proof.
  unfold descriptor_set.
  destruct (Validators.validate _ _ v) as [[[|] e']|e']; cbn; intros H;
    inversion H; reflexivity.
Qed.

(** Reads a field back through the assignments made since. *)
Ltac read_values :=
  repeat first [ rewrite values_set_same
               | rewrite values_set_other by discriminate ].

(** Peels the successful steps of a constructor, one [bind] at a time. *)
Ltac peel H :=
  repeat
    (let a := fresh "a" in
     let w1 := fresh "w" in
     let Hc := fresh "Hc" in
     apply bind_ok in H; destruct H as (a & w1 & Hc & H);
     first
       [ apply lift_ok in Hc; destruct Hc as [Hc ?]; subst w1
       | apply descriptor_set_ok in Hc; destruct Hc as [? Hc]; subst w1 ]).

(* ===================================================================== *)
(** * Properties of the field validators *)
(* ===================================================================== *)

Section ValidatorFacts.

Import Validators.

(** ** Absent values *)

(** Among the optional fields, only the plain text ones accept [None]:
    [CharField.validate] has the line
    [if not self.required and value is None: return True, None]
    and the other validators have no such line. *)
Lemma absent_accepted_only_by_text now (f : field) :
  required (descriptor_of f) = false ->
  (validate now (descriptor_of f) PNone = Ok (true, None)
   <-> f = MR_account \/ f = OS_first_name \/ f = OS_last_name).
Proof.
  intros Hreq. destruct f; try discriminate Hreq; cbn;
    (split; [ intros H; first [discriminate H | auto]
            | intros [H|[H|H]]; first [discriminate H | reflexivity] ]).
Qed.

(** C2: an absent optional field is rejected by every validator except the
    plain text one.  Arguments for interests with a valid client_ids list
    and no date do not construct, and arguments for a score with
    first_name and last_name only do not construct either. *)
Theorem C2_absent_optional_fields_rejected (w : world) :
  ClientsInterestsRequest.init interests_arguments_without_date w
  = (Raise (ValueError "Invalid field value for date: date must be a valid date"),
     set_value w CI_client_ids (PList [PInt 1; PInt 2; PInt 3]))
  /\ OnlineScoreRequest.init score_arguments_names_only w
     = (Raise (ValueError
          "Invalid field value for phone: phone must be a string or an integer"),
        w).
Proof. split; reflexivity. Qed.

(** ** Dates *)

(** C7: the text 30.02.2000 is not answered with a pair: [strptime]
    raises inside [validate], for every setting of the validator. *)
Theorem C7_impossible_date_raises (self : descriptor) :
  DateField_validate self (PStr "30.02.2000")
  = Raise (ValueError "day is out of range for month").
Proof. destruct self as [k [|] n nm]; reflexivity. Qed.

(** Once the pattern is found at the start of the text, the validator of a
    nullable date either accepts or raises; it has no failing verdict
    left to return. *)
Lemma DateField_pattern_then_accept_or_raise (self : descriptor) (s : string) :
  Datetime.date_pattern_match s = true ->
  DateField_validate self (PStr s) = Ok (true, None)
  \/ exists e, DateField_validate self (PStr s) = Raise e.
Proof.
  intros Hm. unfold DateField_validate.
  cbn [Py.is_none andb Py.str]. rewrite andb_false_r, Hm. cbn [negb].
  destruct (Datetime.strptime_dmY s) as [d|e].
  - left. unfold Datetime.eq_date_min. rewrite andb_false_r. reflexivity.
  - right. exists e. reflexivity.
Qed.

(** *** Only text can carry the pattern *)

Lemma digit_is_digit (d : Z) :
  0 <= d < 10 -> Datetime.is_digit (Py.digit d) = true.
Proof.
  intros Hd.
  assert (H : d = 0 \/ d = 1 \/ d = 2 \/ d = 3 \/ d = 4 \/ d = 5 \/ d = 6 \/
              d = 7 \/ d = 8 \/ d = 9) by lia.
  repeat (destruct H as [->|H]; [reflexivity|]). subst d. reflexivity.
Qed.


Lemma decimal_chars (fuel : nat) (n : Z) (acc : string) :
  all_chars digit_or_minus acc = true ->
  all_chars digit_or_minus (Py.decimal fuel n acc) = true.
Proof.
  revert n acc. induction fuel as [|fuel IH]; intros n acc Hacc; cbn [Py.decimal].
  - exact Hacc.
  - assert (Hstep : all_chars digit_or_minus
                      (String (Py.digit (n mod 10)) acc) = true).
    { cbn [all_chars]. unfold digit_or_minus at 1.
      rewrite digit_is_digit by (apply Z.mod_pos_bound; lia).
      exact Hacc. }
    destruct (n / 10 =? 0); [exact Hstep | apply IH; exact Hstep].
Qed.

Lemma int_repr_chars (n : Z) : all_chars digit_or_minus (Py.int_repr n) = true.
Proof.
  unfold Py.int_repr, Py.nat_repr. destruct (n <? 0).
  - cbn [append all_chars]. apply decimal_chars. reflexivity.
  - apply decimal_chars. reflexivity.
Qed.

(** A text with the pattern at its start has a digit first and a dot
    third. *)
Lemma date_pattern_shape (s : string) :
  Datetime.date_pattern_match s = true ->
  exists c1 c2 c3 rest,
    s = String c1 (String c2 (String c3 rest))
    /\ Datetime.is_digit c1 = true /\ Datetime.is_dot c3 = true.
Proof.
  unfold Datetime.date_pattern_match.
  destruct s as [|c1 [|c2 [|c3 rest]]]; cbn [list_ascii_of_string];
    try discriminate.
  destruct (list_ascii_of_string rest) as [|m1 [|m2 [|p2 [|y1 [|y2 [|y3 [|y4 l]]]]]]];
    try discriminate.
  intros H. exists c1, c2, c3, rest.
  repeat match type of H with
         | (_ && _) = true => apply andb_prop in H; destruct H as [H ?]
         end.
  repeat split; assumption.
Qed.

Lemma date_pattern_only_in_text (v : pyval) :
  Datetime.date_pattern_match (Py.str v) = true -> exists s, v = PStr s.
Proof.
  intros H. destruct v as [|b|n|s|l|d].
  - discriminate H.
  - destruct b; discriminate H.
  - exfalso. cbn [Py.str Py.repr] in H.
    destruct (date_pattern_shape _ H) as (c1 & c2 & c3 & rest & Hs & _ & Hdot).
    pose proof (int_repr_chars n) as Hc. rewrite Hs in Hc.
    cbn [all_chars] in Hc.
    apply andb_prop in Hc. destruct Hc as [_ Hc].
    apply andb_prop in Hc. destruct Hc as [_ Hc].
    apply andb_prop in Hc. destruct Hc as [Hc _].
    unfold Datetime.is_dot in Hdot. apply Z.eqb_eq in Hdot.
    unfold digit_or_minus, Datetime.is_digit in Hc. rewrite Hdot in Hc.
    discriminate Hc.
  - exists s. reflexivity.
  - exfalso. destruct (date_pattern_shape _ H) as (c1 & c2 & c3 & rest & Hs & Hd & _).
    cbn in Hs. inversion Hs; subst c1. discriminate Hd.
  - exfalso. destruct (date_pattern_shape _ H) as (c1 & c2 & c3 & rest & Hs & Hd & _).
    cbn in Hs. inversion Hs; subst c1. discriminate Hd.
Qed.

(** *** What [strptime] returns is a day of the calendar *)

Lemma digit_value_bounds (c : ascii) :
  Datetime.is_digit c = true -> 0 <= Datetime.digit_value c <= 9.
Proof.
  unfold Datetime.is_digit, Datetime.digit_value. intros H.
  apply andb_prop in H. destruct H as [H1 H2].
  apply Z.leb_le in H1. apply Z.leb_le in H2. lia.
Qed.

Lemma first_match_some {A B : Type} (alts : list (A * list ascii))
    (k : A -> list ascii -> option B) (b : B) :
  Datetime.first_match alts k = Some b ->
  exists a rest, In (a, rest) alts /\ k a rest = Some b.
Proof.
  induction alts as [|[a rest] more IH]; cbn [Datetime.first_match].
  - discriminate.
  - destruct (k a rest) as [b'|] eqn:Ek.
    + intros H. inversion H; subst. exists a, rest. split; [left; reflexivity | exact Ek].
    + intros H. destruct (IH H) as (a' & rest' & Hin & Hk).
      exists a', rest'. split; [right; exact Hin | exact Hk].
Qed.

(** Splits a guard of the directives into bounds on its digits. *)
Ltac guard_bounds H :=
  repeat match type of H with
         | (_ && _) = true => let H' := fresh "G" in
                              apply andb_prop in H; destruct H as [H H']
         end;
  repeat match goal with
         | G : Datetime.is_digit _ = true |- _ => apply digit_value_bounds in G
         | G : negb (_ =? _) = true |- _ =>
             apply negb_true_iff in G; apply Z.eqb_neq in G
         | G : (_ || _) = true |- _ => apply orb_prop in G
         | G : (_ && _) = true |- _ =>
             let G' := fresh "G" in apply andb_prop in G; destruct G as [G G']
         | G : (_ =? _) = true |- _ => apply Z.eqb_eq in G
         | G : (_ <=? _) = true |- _ => apply Z.leb_le in G
         | G : _ \/ _ |- _ => destruct G as [G|G]
         end.

Lemma day_alts_bounds (cs : list ascii) (d : Z) (rest : list ascii) :
  In (d, rest) (Datetime.day_alts cs) -> 1 <= d <= 31.
Proof.
  unfold Datetime.day_alts. intros H.
  repeat (apply in_app_or in H; destruct H as [H|H]).
  - destruct cs as [|c1 [|c2 r]]; try contradiction.
    destruct (_ && _) eqn:G in H; [|contradiction].
    cbn [In] in H. destruct H as [H|[]]. apply pair_equal_spec in H. destruct H as [<- _].
    guard_bounds G; lia.
  - destruct cs as [|c1 r]; try contradiction.
    destruct (_ && _) eqn:G in H; [|contradiction].
    cbn [In] in H. destruct H as [H|[]]. apply pair_equal_spec in H. destruct H as [<- _].
    guard_bounds G; lia.
  - destruct cs as [|c0 [|c1 r]]; try contradiction.
    destruct (_ && _) eqn:G in H; [|contradiction].
    cbn [In] in H. destruct H as [H|[]]. apply pair_equal_spec in H. destruct H as [<- _].
    guard_bounds G; lia.
Qed.

Lemma month_alts_bounds (cs : list ascii) (m : Z) (rest : list ascii) :
  In (m, rest) (Datetime.month_alts cs) -> 1 <= m <= 12.
Proof.
  unfold Datetime.month_alts. intros H.
  apply in_app_or in H; destruct H as [H|H].
  - destruct cs as [|c1 [|c2 r]]; try contradiction.
    destruct (_ && _) eqn:G in H; [|contradiction].
    cbn [In] in H. destruct H as [H|[]]. apply pair_equal_spec in H. destruct H as [<- _].
    guard_bounds G; lia.
  - destruct cs as [|c1 r]; try contradiction.
    destruct (_ && _) eqn:G in H; [|contradiction].
    cbn [In] in H. destruct H as [H|[]]. apply pair_equal_spec in H. destruct H as [<- _].
    guard_bounds G; lia.
Qed.

Lemma year_alts_bounds (cs : list ascii) (y : Z) (rest : list ascii) :
  In (y, rest) (Datetime.year_alts cs) -> 0 <= y <= 9999.
Proof.
  unfold Datetime.year_alts. intros H.
  destruct cs as [|c1 [|c2 [|c3 [|c4 r]]]]; try contradiction.
  destruct (_ && _) eqn:G in H; [|contradiction].
  cbn [In] in H. destruct H as [H|[]]. apply pair_equal_spec in H. destruct H as [<- _].
    guard_bounds G; lia.
Qed.

Lemma strptime_real_date (s : string) (d : Datetime.datetime) :
  Datetime.strptime_dmY s = Ok d ->
  1 <= Datetime.year d <= 9999
  /\ 1 <= Datetime.month d <= 12
  /\ 1 <= Datetime.day d <= Datetime.days_in_month (Datetime.year d) (Datetime.month d).
Proof.
  unfold Datetime.strptime_dmY, Datetime.match_dmY.
  destruct (Datetime.first_match _ _) as [[[[dd mm] yy] rest]|] eqn:E;
    [|discriminate].
  destruct rest; [|discriminate].
  destruct (Z.eqb_spec yy 0) as [|Hy]; [discriminate|].
  destruct (Z.ltb_spec (Datetime.days_in_month yy mm) dd) as [|Hd]; [discriminate|].
  intros H. inversion H; subst; clear H. cbn.
  apply first_match_some in E. destruct E as (d1 & r1 & Hday & E).
  unfold Datetime.expect_dot in E.
  destruct r1 as [|c r2]; [discriminate|]. destruct (Datetime.is_dot c); [|discriminate].
  apply first_match_some in E. destruct E as (m1 & r3 & Hmonth & E).
  destruct r3 as [|c' r4]; [discriminate|]. destruct (Datetime.is_dot c'); [|discriminate].
  apply first_match_some in E. destruct E as (y1 & r5 & Hyear & E).
  inversion E; subst; clear E.
  apply day_alts_bounds in Hday. apply month_alts_bounds in Hmonth.
  apply year_alts_bounds in Hyear. lia.
Qed.

(** What the date validator accepts: a text with the pattern at its start
    that [strptime] converts, hence a day of the calendar. *)
Lemma DateField_accepts_real_dates (self : descriptor) (v : pyval) :
  DateField_validate self v = Ok (true, None) ->
  exists s d,
    v = PStr s /\ Datetime.date_pattern_match s = true
    /\ Datetime.strptime_dmY s = Ok d
    /\ 1 <= Datetime.year d <= 9999
    /\ 1 <= Datetime.month d <= 12
    /\ 1 <= Datetime.day d
          <= Datetime.days_in_month (Datetime.year d) (Datetime.month d).
Proof.
  unfold DateField_validate.
  destruct (required self && Py.is_none v); [discriminate|].
  destruct (Datetime.date_pattern_match (Py.str v)) eqn:Hm; [|discriminate].
  cbn [negb].
  destruct (date_pattern_only_in_text v Hm) as [s ->]. cbn [Py.str] in *.
  destruct (Datetime.strptime_dmY s) as [d|e] eqn:Hp; [|discriminate].
  intros _. exists s, d.
  pose proof (strptime_real_date s d Hp) as (Hy & Hmo & Hd).
  repeat split; try assumption; lia.
Qed.

(** ** Phones *)

Lemma PhoneField_int (self : descriptor) (n : Z) :
  fst (PhoneField_validate self (PInt n))
  = (70000000000 <=? n) && (n <=? 79999999999).
Proof.
  unfold PhoneField_validate. cbn [Py.is_none Py.is_str Py.is_int Py.int_value
                                   andb negb].
  rewrite andb_false_r.
  destruct (negb (nullable self) && (n =? 0)) eqn:E0.
  - apply andb_prop in E0. destruct E0 as [_ E0].
    apply Z.eqb_eq in E0. subst n. reflexivity.
  - destruct (Z.ltb_spec n 70000000000), (Z.gtb_spec n 79999999999),
      (Z.leb_spec 70000000000 n), (Z.leb_spec n 79999999999);
      try lia; reflexivity.
Qed.

Lemma PhoneField_str (self : descriptor) (s : string) :
  fst (PhoneField_validate self (PStr s))
  = Py.startswith s "7" && (Py.len s =? 11).
Proof.
  unfold PhoneField_validate. cbn [Py.is_none Py.is_str Py.is_int Py.str
                                   andb negb].
  rewrite andb_false_r. cbn [andb].
  destruct (negb (nullable self) && String.eqb s "") eqn:E0.
  - apply andb_prop in E0. destruct E0 as [_ E0].
    apply String.eqb_eq in E0. subst s. reflexivity.
  - destruct (Py.startswith s "7"), (Py.len s =? 11); reflexivity.
Qed.

(** A passing verdict carries no message. *)
Lemma PhoneField_verdict (self : descriptor) (v : pyval) :
  fst (PhoneField_validate self v) = true ->
  PhoneField_validate self v = (true, None).
Proof.
  unfold PhoneField_validate.
  repeat match goal with
         | |- context [if ?c then _ else _] => destruct c
         end; cbn; intros H; first [discriminate H | reflexivity].
Qed.

Lemma decimal_unfold fuel n acc :
  Py.decimal (S fuel) n acc
  = if n / 10 =? 0 then String (Py.digit (n mod 10)) acc
    else Py.decimal fuel (n / 10) (String (Py.digit (n mod 10)) acc).
Proof. reflexivity. Qed.

(** The decimal text of a number from 70000000000 to 79999999999 has
    eleven characters, the first of which is 7. *)
Lemma phone_number_text (n : Z) :
  70000000000 <= n <= 79999999999 ->
  Py.startswith (Py.int_repr n) "7" = true /\ Py.len (Py.int_repr n) = 11.
Proof.
  intros Hn. unfold Py.int_repr, Py.nat_repr.
  destruct (Z.ltb_spec n 0) as [Hneg|_]; [lia|].
  assert (Hlog : 36 <= Z.log2 n).
  { change 36 with (Z.log2 70000000000). apply Z.log2_le_mono. lia. }
  destruct (Z.to_nat (Z.log2 n)) as [|fuel] eqn:Ef; [lia|].
  assert (Hfuel : (10 <= fuel)%nat) by lia.
  do 10 (destruct fuel as [|fuel]; [lia|]; apply le_S_n in Hfuel).
  clear Hfuel Ef Hlog.
  repeat (rewrite decimal_unfold;
          match goal with
          | |- context [?q / 10 =? 0] =>
              let Hz := fresh "Hz" in
              destruct (Z.eqb_spec (q / 10) 0) as [Hz|Hz];
              try (exfalso; clear - Hn Hz;
                   Z.to_euclidean_division_equations; lia);
              clear Hz
          end).
  assert (Hd : n / 10 / 10 / 10 / 10 / 10 / 10 / 10 / 10 / 10 / 10 mod 10 = 7).
  { clear - Hn. Z.to_euclidean_division_equations. lia. }
  rewrite Hd. split; reflexivity.
Qed.

(** C8: every number from 70000000000 to 79999999999 passes, as an integer
    and as its decimal text; an integer passes exactly when it lies in that
    range, and a text exactly when it starts with 7 and has length 11; so a
    text of 10 or 12 characters and an integer of 10 or 12 digits fail. *)
Theorem C8_phone_validation (self : descriptor) :
  (forall n, 70000000000 <= n <= 79999999999 ->
     PhoneField_validate self (PInt n) = (true, None)
     /\ PhoneField_validate self (PStr (Py.int_repr n)) = (true, None))
  /\ (forall n, fst (PhoneField_validate self (PInt n))
                = (70000000000 <=? n) && (n <=? 79999999999))
  /\ (forall s, fst (PhoneField_validate self (PStr s))
                = Py.startswith s "7" && (Py.len s =? 11))
  /\ (forall s, Py.len s = 10 \/ Py.len s = 12 ->
        fst (PhoneField_validate self (PStr s)) = false)
  /\ (forall n, n < 10000000000 \/ 100000000000 <= n ->
        fst (PhoneField_validate self (PInt n)) = false).
Proof.
  repeat split.
  - apply PhoneField_verdict. rewrite PhoneField_int.
    apply andb_true_intro. split; apply Z.leb_le; lia.
  - apply PhoneField_verdict. rewrite PhoneField_str.
    destruct (phone_number_text n H) as [H7 H11].
    rewrite H7, H11. reflexivity.
  - apply PhoneField_int.
  - apply PhoneField_str.
  - intros s Hlen. rewrite PhoneField_str.
    destruct Hlen as [-> | ->]; apply andb_false_r.
  - intros n Hn. rewrite PhoneField_int.
    destruct (Z.leb_spec 70000000000 n), (Z.leb_spec n 79999999999);
      try reflexivity; lia.
Qed.

Lemma C8_phone_validation_witness :
  PhoneField_validate (descriptor_of OS_phone) (PInt 79175002040) = (true, None)
  /\ PhoneField_validate (descriptor_of OS_phone) (PStr "79175002040")
     = (true, None)
  /\ fst (PhoneField_validate (descriptor_of OS_phone) (PStr "7917500204"))
     = false
  /\ fst (PhoneField_validate (descriptor_of OS_phone) (PStr "791750020400"))
     = false
  /\ fst (PhoneField_validate (descriptor_of OS_phone) (PInt 7917500204))
     = false
  /\ fst (PhoneField_validate (descriptor_of OS_phone) (PInt 791750020400))
     = false.
Proof.
  destruct (C8_phone_validation (descriptor_of OS_phone))
    as (Hin & _ & _ & Hstr & Hint).
  destruct (Hin 79175002040 ltac:(lia)) as [Hi Hs].
  refine (conj Hi (conj Hs (conj (Hstr "7917500204" _)
           (conj (Hstr "791750020400" _)
              (conj (Hint 7917500204 _) (Hint 791750020400 _)))))).
  - left. reflexivity.
  - right. reflexivity.
  - left. lia.
  - right. lia.
Defined.

End ValidatorFacts.

(* ===================================================================== *)
(** * Properties of the score arguments *)
(* ===================================================================== *)

Section OnlineScoreFacts.

Lemma validate_result (w : world) :
  OnlineScoreRequest.validate w = (Ok (some_pair_truthy w), w).
Proof.
  unfold OnlineScoreRequest.validate, some_pair_truthy, bind, descriptor_get, ret.
  destruct (Py.truthy (values w OS_phone) && Py.truthy (values w OS_email));
    [reflexivity|].
  destruct (Py.truthy (values w OS_first_name)
            && Py.truthy (values w OS_last_name)); [reflexivity|].
  destruct (Py.truthy (values w OS_gender) && Py.truthy (values w OS_birthday));
    reflexivity.
Qed.

Lemma execute_result (w : world) :
  OnlineScoreRequest.execute w
  = if some_pair_truthy w then (Ok (ScoreDict (NFloat (score_of w))), w)
    else (Raise (ValueError "Invalid arguments"), w).
Proof.
  unfold OnlineScoreRequest.execute.
  rewrite (bind_step _ _ _ _ _ (validate_result w)).
  destruct (some_pair_truthy w); reflexivity.
Qed.

(** Whatever the fields hold, [execute] raises "Invalid arguments" if and
    only if none of the three pairs has two true values, and otherwise
    returns the score dict computed by [get_score], writing nothing. *)
Lemma execute_by_truthiness (w : world) :
  (fst (OnlineScoreRequest.execute w) = Raise (ValueError "Invalid arguments")
   <-> some_pair_truthy w = false)
  /\ (some_pair_truthy w = true ->
      OnlineScoreRequest.execute w = (Ok (ScoreDict (NFloat (score_of w))), w)).
Proof.
  rewrite execute_result. destruct (some_pair_truthy w); cbn.
  - split; [split; discriminate | reflexivity].
  - split; [split; reflexivity | discriminate].
Qed.



(** C10: with a gender of 0, [get_score] returns what it returns without
    birthday and gender, and [validate] answers from the other two pairs
    alone, as it does when gender is absent. *)
Theorem C10_gender_zero_is_absent (w : world)
    (store phone email birthday first_name last_name : pyval) :
  values w OS_gender = PInt 0 ->
  Scoring.get_score store phone email birthday (PInt 0) first_name last_name
  = Scoring.get_score store phone email PNone PNone first_name last_name
  /\ Scoring.get_score store phone email birthday (PInt 0) first_name last_name
     = Scoring.get_score store phone email birthday PNone first_name last_name
  /\ fst (OnlineScoreRequest.validate w)
     = Ok ((Py.truthy (values w OS_phone) && Py.truthy (values w OS_email))
           || (Py.truthy (values w OS_first_name)
               && Py.truthy (values w OS_last_name)))
  /\ fst (OnlineScoreRequest.validate w)
     = fst (OnlineScoreRequest.validate (set_value w OS_gender PNone)).
Proof.
  intros Hg.
  destruct (get_score_gender_zero store phone email birthday first_name last_name)
    as [Hnone Hboth].
  split; [exact Hboth | split; [exact Hnone | ]].
  rewrite !validate_result. unfold some_pair_truthy.
  read_values. rewrite Hg. cbn [Py.truthy Z.eqb negb andb fst].
  rewrite !orb_false_r. split; reflexivity.
Qed.

Lemma C10_gender_zero_is_absent_witness :
  fst (OnlineScoreRequest.validate gender_zero_world) = Ok false
  /\ Scoring.get_score PNone PNone PNone (PStr "01.01.2000") (PInt 0) PNone PNone
     = Scoring.get_score PNone PNone PNone PNone PNone PNone PNone.
Proof.
  destruct (C10_gender_zero_is_absent gender_zero_world PNone PNone PNone
              (PStr "01.01.2000") PNone PNone eq_refl) as (Hs & _ & Hv & _).
  exact (conj Hv Hs).
Defined.

(** ** What the constructor leaves in the fields *)

Lemma PhoneField_valid_truthy (self : descriptor) (v : pyval) e :
  Validators.PhoneField_validate self v = (true, e) -> Py.truthy v = true.
Proof.
  intros H. apply (f_equal fst) in H. cbn [fst] in H.
  destruct v as [|b|n|s|l|d];
    try (unfold Validators.PhoneField_validate in H;
         destruct (required self), (nullable self); cbn in H;
         discriminate H).
  - unfold Validators.PhoneField_validate in H.
    destruct b, (required self), (nullable self); cbn in H; discriminate H.
  - rewrite PhoneField_int in H. apply andb_prop in H. destruct H as [H _].
    apply Z.leb_le in H. cbn. destruct (Z.eqb_spec n 0); [lia | reflexivity].
  - rewrite PhoneField_str in H. apply andb_prop in H. destruct H as [H _].
    destruct s; [discriminate H | reflexivity].
Qed.

Lemma EmailField_valid_truthy (self : descriptor) (v : pyval) e :
  required self = false ->
  Validators.EmailField_validate self v = (true, e) -> Py.truthy v = true.
Proof.
  intros Hreq H. unfold Validators.EmailField_validate,
    Validators.CharField_validate in H. rewrite Hreq in H.
  destruct v as [|b|n|s|l|d], (nullable self); cbn in H; try discriminate H;
    (destruct s; [discriminate H | reflexivity]).
Qed.

(** Arguments that construct always carry a phone and an email, so the
    check of the pairs in [execute] cannot fail on a constructed request. *)
Lemma constructed_score_arguments_execute (data : pyval) (w w' : world) u :
  OnlineScoreRequest.init data w = (Ok u, w') ->
  OnlineScoreRequest.execute w' = (Ok (ScoreDict (NFloat (score_of w'))), w').
Proof.
  intros H. unfold OnlineScoreRequest.init in H. peel H.
  apply descriptor_set_ok in H. destruct H as [-> _].
  rewrite execute_result.
  replace (some_pair_truthy _) with true; [reflexivity|].
  symmetry. unfold some_pair_truthy.
  read_values.
  destruct Hc0 as [e0 Hc0]. destruct Hc2 as [e2 Hc2].
  unfold Validators.validate in Hc0, Hc2.
  cbn [descriptor_of field_kind] in Hc0, Hc2.
  inversion Hc0 as [Hp]. inversion Hc2 as [He].
  rewrite (PhoneField_valid_truthy _ _ _ Hp).
  rewrite (fun Hreq => EmailField_valid_truthy _ _ _ Hreq He) by reflexivity.
  reflexivity.
Qed.



End OnlineScoreFacts.

(* ===================================================================== *)
(** * Properties of the digest *)
(* ===================================================================== *)

Section DigestFacts.

Import Hashlib.

Lemma all_chars_app p s t :
  all_chars p (s ++ t) = all_chars p s && all_chars p t.
Proof.
  induction s as [|c s IH]; cbn; [reflexivity|].
  rewrite IH. apply andb_assoc.
Qed.

Lemma length_app_string (s t : string) :
  String.length (s ++ t) = (String.length s + String.length t)%nat.
Proof. induction s as [|c s IH]; cbn; [reflexivity | now rewrite IH]. Qed.

Lemma hex_digit_lower (d : Z) : 0 <= d < 16 -> is_lower_hex (hex_digit d) = true.
Proof.
  intros Hd.
  assert (H : d = 0 \/ d = 1 \/ d = 2 \/ d = 3 \/ d = 4 \/ d = 5 \/ d = 6 \/ d = 7 \/
              d = 8 \/ d = 9 \/ d = 10 \/ d = 11 \/ d = 12 \/ d = 13 \/ d = 14 \/
              d = 15) by lia.
  repeat (destruct H as [->|H]; [reflexivity|]). subst d. reflexivity.
Qed.

Lemma hex_word_shape (n : nat) (x : Z) :
  all_chars is_lower_hex (hex_word n x) = true
  /\ String.length (hex_word n x) = n.
Proof.
  revert x. induction n as [|n IH]; intros x; cbn [hex_word].
  - split; reflexivity.
  - destruct (IH (x / 16)) as [Hc Hl].
    rewrite all_chars_app, length_app_string, Hc, Hl. cbn.
    rewrite hex_digit_lower by (apply Z.mod_pos_bound; lia).
    split; [reflexivity | lia].
Qed.

Lemma compress_length (h block : list Z) :
  List.length h = 8%nat -> List.length (compress h block) = 8%nat.
Proof.
  intros Hh. unfold compress.
  rewrite length_map, length_combine, Hh. reflexivity.
Qed.

Lemma sha512_words_length (msg : list Z) :
  List.length (sha512_words msg) = 8%nat.
Proof.
  unfold sha512_words.
  assert (H : List.length H0 = 8%nat) by reflexivity.
  revert H. generalize H0. induction (blocks (pad msg)) as [|b bs IH];
    intros h Hh; cbn [fold_left].
  - exact Hh.
  - apply IH. apply compress_length. exact Hh.
Qed.

(** The digest is a text of 128 characters among 0-9 and a-f. *)
Lemma sha512_hexdigest_shape (s : string) :
  all_chars is_lower_hex (sha512_hexdigest s) = true
  /\ String.length (sha512_hexdigest s) = 128%nat.
Proof.
  unfold sha512_hexdigest.
  pose proof (sha512_words_length (encode_utf8 s)) as Hlen.
  destruct (sha512_words (encode_utf8 s)) as [|w1 [|w2 [|w3 [|w4 [|w5 [|w6
             [|w7 [|w8 [|w9 ws]]]]]]]]]; try discriminate Hlen.
  cbn [fold_right].
  repeat rewrite all_chars_app. repeat rewrite length_app_string.
  repeat match goal with
         | |- context [hex_word 16 ?w] =>
             let Hc := fresh "Hc" in
             let Hl := fresh "Hl" in
             destruct (hex_word_shape 16 w) as [Hc Hl];
             rewrite Hc, Hl; clear Hc Hl
         end.
  split; reflexivity.
Qed.

End DigestFacts.

(* ===================================================================== *)
(** * Arguments with an absent field *)
(* ===================================================================== *)

Section AbsentFields.

Lemma dict_get_absent (d : dict) (key : string) :
  Py.lookup d key = None -> Py.dict_get d key PNone = PNone.
Proof. unfold Py.dict_get. intros ->. reflexivity. Qed.

(** No arguments without a date construct a request for interests. *)
Lemma interests_without_date_never_construct (d : dict) (w : world) :
  Py.lookup d "date" = None ->
  forall u w', ClientsInterestsRequest.init (PDict d) w <> (Ok u, w').
Proof.
  intros Habsent u w' H. unfold ClientsInterestsRequest.init in H. peel H.
  apply descriptor_set_ok in H. destruct H as [_ [e H]].
  cbn [Py.get] in Hc1. inversion Hc1 as [Hd].
  rewrite (dict_get_absent _ _ Habsent) in Hd. subst.
  discriminate H.
Qed.

(** No arguments without a phone construct a request for a score, and the
    same holds for email, birthday and gender. *)
Lemma score_without_contact_never_constructs (d : dict) (w : world) :
  Py.lookup d "phone" = None \/ Py.lookup d "email" = None
  \/ Py.lookup d "birthday" = None \/ Py.lookup d "gender" = None ->
  forall u w', OnlineScoreRequest.init (PDict d) w <> (Ok u, w').
Proof.
  intros Habsent u w' H. unfold OnlineScoreRequest.init in H. peel H.
  apply descriptor_set_ok in H. destruct H as [_ [e H]].
  cbn [Py.get] in *.
  repeat match goal with
         | Hg : Ok (Py.dict_get d _ PNone) = Ok _ |- _ =>
             inversion Hg; clear Hg; subst
         end.
  destruct Habsent as [Ha|[Ha|[Ha|Ha]]];
    rewrite (dict_get_absent _ _ Ha) in *.
  - destruct Hc0 as [e0 Hc0]. discriminate Hc0.
  - destruct Hc2 as [e2 Hc2]. discriminate Hc2.
  - destruct Hc8 as [e8 Hc8]. discriminate Hc8.
  - discriminate H.
Qed.

End AbsentFields.

(* ===================================================================== *)
(** * Properties of the envelope and of authentication *)
(* ===================================================================== *)

Section EnvelopeFacts.

Lemma CharField_valid_shape (self : descriptor) (v : pyval) e :
  Validators.CharField_validate self v = (true, e) ->
  (v = PNone /\ required self = false) \/ exists s, v = PStr s.
Proof.
  unfold Validators.CharField_validate.
  destruct v as [|b|n|s|l|d], (required self); cbn; intros H;
    try discriminate H;
    first [ left; split; reflexivity | right; eexists; reflexivity ].
Qed.

Lemma ArgumentsField_valid_shape (self : descriptor) (v : pyval) e :
  Validators.ArgumentsField_validate self v = (true, e) -> exists d, v = PDict d.
Proof.
  unfold Validators.ArgumentsField_validate.
  destruct v as [|b|n|s|l|d], (required self); cbn; intros H;
    try discriminate H; eexists; reflexivity.
Qed.

(** What a constructed envelope holds, and what its construction leaves
    alone. *)
Lemma constructed_envelope (request : dict) (w w1 : world) inst :
  MethodRequest.init request w = (Ok inst, w1) ->
  (values w1 MR_account = PNone \/ exists a, values w1 MR_account = PStr a)
  /\ (exists login, values w1 MR_login = PStr login)
  /\ (exists token, values w1 MR_token = PStr token)
  /\ (exists d, values w1 MR_arguments = PDict d)
  /\ (exists m, values w1 MR_method = PStr m)
  /\ (forall f, is_envelope_field f = false -> values w1 f = values w f)
  /\ ctx w1 = ctx w /\ rng w1 = rng w /\ now w1 = now w.
Proof.
  intros H. unfold MethodRequest.init in H. peel H.
  unfold ret in H. inversion H; subst; clear H.
  repeat match goal with
         | Hv : exists e, Validators.validate _ _ _ = Ok (true, e) |- _ =>
             destruct Hv as [? Hv]; unfold Validators.validate in Hv;
             cbn [descriptor_of field_kind] in Hv; inversion Hv; clear Hv
         end.
  repeat match goal with
         | Hv : Validators.CharField_validate _ _ = (true, _) |- _ =>
             apply CharField_valid_shape in Hv; cbn [required] in Hv
         | Hv : Validators.ArgumentsField_validate _ _ = (true, _) |- _ =>
             apply ArgumentsField_valid_shape in Hv
         end.
  repeat match goal with
         | Hv : (_ /\ true = false) \/ _ |- _ =>
             destruct Hv as [[_ Hv]|Hv]; [discriminate Hv|]
         end.
  repeat split; read_values;
    try match goal with
        | Hv : (?v = PNone /\ _) \/ (exists a, ?v = PStr a) |- ?v = PNone \/ _ =>
            destruct Hv as [[Hv _]|Hv]; [left; exact Hv | right; exact Hv]
        end;
    try assumption.
  intros f Hf. destruct f; try discriminate Hf; read_values; reflexivity.
Qed.

(** Authentication only reads. *)
Lemma check_auth_reads_only (w : world) : snd (MethodRequest.check_auth w) = w.
Proof.
  unfold MethodRequest.check_auth, MethodRequest.is_admin, MethodRequest.digest_of,
    bind, descriptor_get, ret, lift, raise.
  destruct (Py.eq_str (values w MR_login) ADMIN_LOGIN); [reflexivity|].
  destruct (Py.add _ (values w MR_login)) as [s|e]; [|reflexivity].
  destruct (Py.add s (PStr SALT)) as [[| | |t| |]|e]; reflexivity.
Qed.

Lemma check_auth_result (w : world) (login token : string) :
  (values w MR_account = PNone \/ exists a, values w MR_account = PStr a) ->
  values w MR_login = PStr login ->
  values w MR_token = PStr token ->
  MethodRequest.check_auth w
  = (Ok (String.eqb token (Hashlib.sha512_hexdigest (auth_material w login))), w).
Proof.
  intros Ha Hl Ht.
  unfold MethodRequest.check_auth, MethodRequest.is_admin, MethodRequest.digest_of,
    bind, descriptor_get, ret, lift, raise, auth_material, account_text.
  rewrite Hl. cbn [Py.eq_str].
  destruct (String.eqb login ADMIN_LOGIN).
  - cbv beta iota. rewrite Ht. reflexivity.
  - destruct Ha as [-> | [a ->]]; cbn [Py.truthy Py.add].
    + rewrite Hl. cbn [Py.add]. cbv beta iota. rewrite Ht. reflexivity.
    + destruct a as [|c a]; cbn [negb String.eqb Py.add]; cbv beta iota;
        rewrite Hl; cbn [Py.add]; cbv beta iota; rewrite Ht; reflexivity.
Qed.

(** C4, as the specification words it, fails where local time is not UTC:
    on a server three hours east of Greenwich the administrator's token
    made from the local hour is accepted, and it is not the digest of the
    hour in UTC. *)
Lemma C4_utc_hour_is_not_what_is_hashed :
  let w := snd (MethodRequest.init
                  (envelope "admin" admin_token "online_score" []) fresh_world) in
  fst (MethodRequest.check_auth w) = Ok true
  /\ values w MR_token
     <> PStr (Hashlib.sha512_hexdigest (spec_auth_material w "admin")).
Proof.
  split.
  - vm_compute. reflexivity.
  - vm_compute. intros H. discriminate H.
Qed.

(** C4 (amended): on a constructed envelope [check_auth] returns, and it
    returns true if and only if the token is the lowercase hexadecimal
    SHA-512 digest of: for login admin, the current hour of local time
    written YYYYMMDDHH followed by the admin salt; otherwise (account or
    empty text) followed by login and the general salt. *)
Theorem C4_check_auth_digest (request : dict) (w0 w : world) inst
    (login token : string) :
  MethodRequest.init request w0 = (Ok inst, w) ->
  values w MR_login = PStr login ->
  values w MR_token = PStr token ->
  (MethodRequest.check_auth w = (Ok true, w)
   <-> token = Hashlib.sha512_hexdigest (auth_material w login))
  /\ (exists b, MethodRequest.check_auth w = (Ok b, w))
  /\ all_chars is_lower_hex (Hashlib.sha512_hexdigest (auth_material w login))
     = true.
Proof.
  intros Hinit Hl Ht.
  destruct (constructed_envelope _ _ _ _ Hinit) as (Ha & _).
  rewrite (check_auth_result w login token Ha Hl Ht).
  split; [|split].
  - split.
    + intros H. inversion H as [Heq]. apply String.eqb_eq. exact Heq.
    + intros ->. rewrite String.eqb_refl. reflexivity.
  - eexists. reflexivity.
  - apply sha512_hexdigest_shape.
Qed.

Lemma C4_check_auth_digest_witness :
  let admin := snd (MethodRequest.init
                      (envelope "admin" admin_token "online_score" [])
                      fresh_world) in
  let user := snd (MethodRequest.init
                     (envelope "h&f" user_token "online_score" []) fresh_world) in
  MethodRequest.check_auth admin = (Ok true, admin)
  /\ MethodRequest.check_auth user = (Ok true, user).
Proof.
  split.
  - refine (proj2 (proj1 (C4_check_auth_digest
             (envelope "admin" admin_token "online_score" []) fresh_world _
             {| MethodRequest.body :=
                  Py.dict_get (envelope "admin" admin_token "online_score" [])
                              "body" (PDict []) |}
             "admin" admin_token _ _ _)) _);
      [reflexivity | reflexivity | reflexivity | vm_compute; reflexivity].
  - refine (proj2 (proj1 (C4_check_auth_digest
             (envelope "h&f" user_token "online_score" []) fresh_world _
             {| MethodRequest.body :=
                  Py.dict_get (envelope "h&f" user_token "online_score" [])
                              "body" (PDict []) |}
             "h&f" user_token _ _ _)) _);
      [reflexivity | reflexivity | reflexivity | vm_compute; reflexivity].
Defined.

End EnvelopeFacts.

(* ===================================================================== *)
(** * Properties of the dispatcher *)
(* ===================================================================== *)

Section DispatcherFacts.

(** After a successful construction the handler goes on from the world the
    constructor left. *)
Lemma handler_first_try (request : dict) (w w1 : world) inst :
  MethodRequest.init request w = (Ok inst, w1) ->
  try_except_ValueError
    (bind (MethodRequest.init request) (fun method_request => ret (inl method_request)))
    (fun e => ret (inr (Message e, Api.INVALID_REQUEST))) w
  = (Ok (inl inst), w1).
Proof.
  intros Hinit. unfold try_except_ValueError.
  rewrite (bind_step _ _ _ _ _ Hinit). reflexivity.
Qed.

(** C6: when the envelope constructs and [check_auth] returns false, the
    handler returns "Forbidden" with status 403 in the very world the
    construction of the envelope left: whatever the method and the
    arguments are, no field of an argument schema has been assigned, the
    context is untouched and no random draw was made. *)
Theorem C6_unauthenticated_is_forbidden (request : dict) (w w1 : world) inst :
  MethodRequest.init request w = (Ok inst, w1) ->
  fst (MethodRequest.check_auth w1) = Ok false ->
  Api.method_handler request w = (Ok (Message "Forbidden", Api.FORBIDDEN), w1)
  /\ (forall f, is_envelope_field f = false -> values w1 f = values w f)
  /\ ctx w1 = ctx w /\ rng w1 = rng w.
Proof.
  intros Hinit Hauth.
  assert (Hca : MethodRequest.check_auth w1 = (Ok false, w1)).
  { pose proof (check_auth_reads_only w1) as Hw.
    destruct (MethodRequest.check_auth w1) as [r w']. cbn in Hauth, Hw.
    subst. reflexivity. }
  destruct (constructed_envelope _ _ _ _ Hinit)
    as (_ & _ & _ & _ & _ & Hframe & Hctx & Hrng & _).
  split; [|split; [exact Hframe | split; assumption]].
  unfold Api.method_handler, Api.method_handler_with.
  rewrite (bind_step _ _ _ _ _ (handler_first_try _ _ _ _ Hinit)).
  rewrite (bind_step _ _ _ _ _ Hca). reflexivity.
Qed.

Lemma C6_unauthenticated_is_forbidden_witness :
  fst (Api.method_handler
         (envelope "h&f" "bad token" "online_score" valid_score_arguments)
         fresh_world)
  = Ok (Message "Forbidden", 403)
  /\ fst (Api.method_handler
            (envelope "admin" user_token "no such method" []) fresh_world)
     = Ok (Message "Forbidden", 403).
Proof.
  split.
  - refine (f_equal fst (proj1 (C6_unauthenticated_is_forbidden
      (envelope "h&f" "bad token" "online_score" valid_score_arguments)
      fresh_world _
      {| MethodRequest.body :=
           Py.dict_get (envelope "h&f" "bad token" "online_score"
                                 valid_score_arguments) "body" (PDict []) |}
      _ _)));
      [reflexivity | vm_compute; reflexivity].
  - refine (f_equal fst (proj1 (C6_unauthenticated_is_forbidden
      (envelope "admin" user_token "no such method" []) fresh_world _
      {| MethodRequest.body :=
           Py.dict_get (envelope "admin" user_token "no such method" [])
                       "body" (PDict []) |}
      _ _)));
      [reflexivity | vm_compute; reflexivity].
Defined.

(** C5: an authenticated administrator asking for online_score with valid
    arguments gets no payload: the handler looks up [get_fields], which the
    class does not have, and the [AttributeError] leaves the handler;
    [do_POST] turns it into status 500. *)
Theorem C5_admin_online_score_raises :
  fst (Api.method_handler
         (envelope "admin" admin_token "online_score" valid_score_arguments)
         fresh_world)
  = Raise (AttributeError
             "'OnlineScoreRequest' object has no attribute 'get_fields'")
  /\ fst (Api.do_POST_reply
            (envelope "admin" admin_token "online_score" valid_score_arguments)
            fresh_world)
     = Api.Error (Message "Internal Server Error") 500.
Proof. split; vm_compute; reflexivity. Qed.

(** The same holds for every caller: no request for online_score is
    answered with status 200. *)
Lemma online_score_never_answered (request : dict) (w w1 : world) inst :
  MethodRequest.init request w = (Ok inst, w1) ->
  values w1 MR_method = PStr "online_score" ->
  forall response w', Api.method_handler request w <> (Ok (response, Api.OK), w').
Proof.
  intros Hinit Hm response w' H.
  unfold Api.method_handler, Api.method_handler_with in H.
  rewrite (bind_step _ _ _ _ _ (handler_first_try _ _ _ _ Hinit)) in H.
  pose proof (check_auth_reads_only w1) as Hw.
  destruct (MethodRequest.check_auth w1) as [[authorised|e] w2] eqn:Hca;
    cbn in Hw; subst w2.
  2: { rewrite (bind_raise _ _ _ _ _ Hca) in H. discriminate H. }
  rewrite (bind_step _ _ _ _ _ Hca) in H.
  destruct authorised; cbn [negb] in H; [|discriminate H].
  unfold try_except_ValueError in H.
  unfold bind at 1 in H. unfold descriptor_get at 1 in H.
  rewrite Hm in H. cbn [Py.eq_str] in H.
  change (String.eqb "online_score" "online_score") with true in H.
  cbv iota in H.
  unfold bind at 1 in H. unfold descriptor_get at 1 in H.
  unfold bind at 1 in H.
  destruct (OnlineScoreRequest.init (values w1 MR_arguments) w1)
    as [[u|[m|m|m]] w2]; cbn in H; discriminate H.
Qed.

(** Had the class a [get_fields] that returns, the administrator would
    get the fixed score: the return of 42 stands in the source right after
    the call, before [execute], and needs no pair of fields. *)
Lemma admin_score_behind_get_fields (get_fields : M pyval) (has : pyval)
    (request : dict) (w w1 w2 : world) inst u :
  (forall w0, get_fields w0 = (Ok has, w0)) ->
  MethodRequest.init request w = (Ok inst, w1) ->
  MethodRequest.check_auth w1 = (Ok true, w1) ->
  values w1 MR_login = PStr ADMIN_LOGIN ->
  values w1 MR_method = PStr "online_score" ->
  OnlineScoreRequest.init (values w1 MR_arguments) w1 = (Ok u, w2) ->
  Api.method_handler_with get_fields request w
  = (Ok (ScoreDict (NInt 42), Api.OK),
     set_ctx w2 (Py.dict_set (ctx w2) "has" has)).
Proof.
  intros Hgf Hinit Hca Hlogin Hm Hos.
  unfold Api.method_handler_with.
  rewrite (bind_step _ _ _ _ _ (handler_first_try _ _ _ _ Hinit)).
  rewrite (bind_step _ _ _ _ _ Hca). cbn [negb].
  unfold try_except_ValueError.
  unfold bind at 1. unfold descriptor_get at 1.
  rewrite Hm. cbn [Py.eq_str].
  change (String.eqb "online_score" "online_score") with true. cbv iota.
  unfold bind at 1. unfold descriptor_get at 1.
  rewrite (bind_step _ _ _ _ _ Hos).
  rewrite (bind_step _ _ _ _ _ (Hgf w2)).
  unfold bind at 1. unfold Api.ctx_setitem at 1.
  assert (Hl2 : values w2 MR_login = PStr ADMIN_LOGIN).
  { rewrite <- Hlogin. clear - Hos. unfold OnlineScoreRequest.init in Hos.
    peel Hos. apply descriptor_set_ok in Hos. destruct Hos as [-> _].
    read_values. reflexivity. }
  unfold MethodRequest.is_admin, descriptor_get, ret, bind.
  cbn [values set_ctx]. rewrite Hl2. reflexivity.
Qed.

Example admin_score_with_a_get_fields :
  fst (Api.method_handler_with (ret (PList []))
         (envelope "admin" admin_token "online_score" valid_score_arguments)
         fresh_world)
  = Ok (ScoreDict (NInt 42), 200).
Proof. vm_compute. reflexivity. Qed.

End DispatcherFacts.

(* ===================================================================== *)
(** * Properties of the interests *)
(* ===================================================================== *)

Section InterestsFacts.

Lemma every_selection_is_good :
  forallb (fun j0 => forallb (fun j1 => two_distinct_tags (selection j0 j1))
                             (seq 0 10))
          (seq 0 11) = true.
Proof. vm_compute. reflexivity. Qed.

Lemma selection_good (j0 j1 : nat) :
  (j0 < 11)%nat -> (j1 < 10)%nat -> two_distinct_tags (selection j0 j1) = true.
Proof.
  intros H0 H1. pose proof every_selection_is_good as H.
  rewrite forallb_forall in H. specialize (H j0).
  rewrite forallb_forall in H. apply H; apply in_seq; lia.
Qed.

Lemma get_interests_good (store cid : pyval) (g : Random.generator) :
  exists tags g',
    Scoring.get_interests store cid g = (Ok tags, g')
    /\ two_distinct_tags tags = true.
Proof.
  unfold Scoring.get_interests, Random.sample.
  change (List.length Scoring.interests) with 11%nat.
  change (11 <? 2)%nat with false. cbv iota.
  cbv beta iota zeta delta [Random.pick Random.randbelow Random.entropy
                            Random.drawn].
  change (11 - 1)%nat with 10%nat.
  eexists. eexists. split; [reflexivity|].
  apply selection_good; apply Nat.mod_upper_bound; discriminate.
Qed.

Lemma two_distinct_tags_spec (tags : list string) :
  two_distinct_tags tags = true ->
  List.length tags = 2%nat /\ NoDup tags
  /\ (forall t, In t tags -> In t Scoring.interests)
  /\ List.length Scoring.interests = 11%nat.
Proof.
  destruct tags as [|a [|b [|c rest]]]; cbn [two_distinct_tags];
    try discriminate.
  intros H. apply andb_prop in H. destruct H as [H Hb].
  apply andb_prop in H. destruct H as [Hne Ha].
  apply negb_true_iff in Hne. apply String.eqb_neq in Hne.
  apply existsb_exists in Ha. destruct Ha as [x [Hx Hax]].
  apply String.eqb_eq in Hax. subst x.
  apply existsb_exists in Hb. destruct Hb as [y [Hy Hby]].
  apply String.eqb_eq in Hby. subst y.
  repeat split.
  - constructor.
    + intros [Hin|[]]. apply Hne. symmetry. exact Hin.
    + constructor; [intros [] | constructor].
  - intros t [<-|[<-|[]]]; assumption.
Qed.

(** C9: for client_ids [1, 2, 3], whatever the generator draws, [execute]
    returns a dict with exactly the three keys 1, 2 and 3, each bound to a
    list of exactly two different tags of the vocabulary of eleven. *)
Theorem C9_interests_of_three_clients (w : world) :
  values w CI_client_ids = PList [PInt 1; PInt 2; PInt 3] ->
  exists t1 t2 t3 w',
    ClientsInterestsRequest.execute w
    = (Ok [(PInt 1, t1); (PInt 2, t2); (PInt 3, t3)], w')
    /\ Forall (fun tags => List.length tags = 2%nat /\ NoDup tags
                          /\ (forall t, In t tags -> In t Scoring.interests)
                          /\ List.length Scoring.interests = 11%nat)
              [t1; t2; t3].
Proof.
  intros Hids. unfold ClientsInterestsRequest.execute, bind, descriptor_get.
  rewrite Hids. cbn [ClientsInterestsRequest.collect].
  destruct (get_interests_good PNone (PInt 1) (rng w)) as (t1 & g1 & E1 & G1).
  rewrite E1. cbn [mapping_set ClientsInterestsRequest.collect rng set_rng].
  destruct (get_interests_good PNone (PInt 2) g1) as (t2 & g2 & E2 & G2).
  rewrite E2. cbn [mapping_set ClientsInterestsRequest.collect rng set_rng
                   Py.int_value Z.eqb Pos.eqb].
  destruct (get_interests_good PNone (PInt 3) g2) as (t3 & g3 & E3 & G3).
  rewrite E3. cbn [mapping_set ClientsInterestsRequest.collect rng set_rng
                   Py.int_value Z.eqb Pos.eqb ret].
  exists t1, t2, t3. eexists. split; [reflexivity|].
  pose proof (two_distinct_tags_spec t1 G1).
  pose proof (two_distinct_tags_spec t2 G2).
  pose proof (two_distinct_tags_spec t3 G3).
  auto using Forall_cons, Forall_nil.
Qed.

Lemma C9_interests_of_three_clients_witness :
  exists t1 t2 t3 w',
    ClientsInterestsRequest.execute
      (snd (ClientsInterestsRequest.init interests_arguments fresh_world))
    = (Ok [(PInt 1, t1); (PInt 2, t2); (PInt 3, t3)], w')
    /\ Forall (fun tags => List.length tags = 2%nat /\ NoDup tags
                          /\ (forall t, In t tags -> In t Scoring.interests)
                          /\ List.length Scoring.interests = 11%nat)
              [t1; t2; t3].
Proof.
  apply (C9_interests_of_three_clients
           (snd (ClientsInterestsRequest.init interests_arguments fresh_world))).
  reflexivity.
Defined.

End InterestsFacts.

(* ===================================================================== *)
(** * Further properties of the field validators *)
(* ===================================================================== *)

Section ValidatorCharacterisations.

Import Validators.

(** X1: a text field accepts [None] exactly when it is not required, and
    otherwise exactly the texts, the empty one only when it is nullable;
    every other value is rejected. *)
Theorem X1_CharField_accepts (self : descriptor) (v : pyval) :
  fst (CharField_validate self v) = true
  <-> (v = PNone /\ required self = false)
      \/ exists s, v = PStr s /\ (nullable self = true \/ s <> "").
Proof.
  unfold CharField_validate. split.
  - destruct v as [|b|n|s|l|d], (required self), (nullable self); cbn;
      intros H; try discriminate H;
      first [ left; split; reflexivity
            | right; exists s; split; [reflexivity|]; first
                [ left; reflexivity
                | right; intros ->; discriminate H ] ].
  - intros [[-> ->]|[s [-> Hs]]].
    + reflexivity.
    + destruct s, (required self), (nullable self); cbn; try reflexivity;
        (destruct Hs as [Hs|Hs];
         [discriminate Hs | exfalso; apply Hs; reflexivity]).
Qed.

(** X2: an email field accepts exactly the texts that contain the
    character @, whatever its flags: the empty text is rejected even when
    the field is nullable and [None] even when it is not required. *)
Theorem X2_EmailField_accepts (self : descriptor) (v : pyval) :
  fst (EmailField_validate self v) = true
  <-> exists s, v = PStr s /\ Py.contains_char "@" s = true.
Proof.
  unfold EmailField_validate, CharField_validate. split.
  - destruct v as [|b|n|s|l|d], (required self), (nullable self); cbn;
      intros H; try discriminate H; exists s; (split; [reflexivity|]);
      destruct s as [|c s]; try discriminate H;
      cbn in H |- *; (destruct (_ || _); [reflexivity | discriminate H]).
  - intros [s [-> Hs]].
    destruct s as [|c s]; [discriminate Hs|].
    destruct (required self), (nullable self); cbn in Hs |- *; rewrite Hs;
      reflexivity.
Qed.

(** X3: a gender field accepts exactly the integers 0, 1 and 2 and the two
    booleans, which Python counts as the integers 0 and 1; [None] is
    rejected even when the field is not required. *)
Theorem X3_GenderField_accepts (self : descriptor) (v : pyval) :
  fst (GenderField_validate self v) = true
  <-> v = PInt 0 \/ v = PInt 1 \/ v = PInt 2 \/ exists b, v = PBool b.
Proof.
  unfold GenderField_validate. split.
  - destruct v as [|b|n|s|l|d], (required self); cbn; intros H;
      try discriminate H; try (right; right; right; exists b; reflexivity);
      (destruct (Z.eqb_spec n 0) as [E0|E0];
         [left; rewrite E0; reflexivity|];
       destruct (Z.eqb_spec n 1) as [E1|E1];
         [right; left; rewrite E1; reflexivity|];
       destruct (Z.eqb_spec n 2) as [E2|E2];
         [right; right; left; rewrite E2; reflexivity|];
       discriminate H).
  - intros [->|[->|[->|[b ->]]]]; destruct (required self); try reflexivity;
      destruct b; reflexivity.
Qed.

(** X4: a field of client identifiers accepts exactly the lists whose
    elements are all integers (booleans included), the empty list only
    when the field is nullable; [None] is rejected whatever the flags. *)
Theorem X4_ClientIDsField_accepts (self : descriptor) (v : pyval) :
  fst (ClientIDsField_validate self v) = true
  <-> exists items, v = PList items /\ forallb Py.is_int items = true
                    /\ (nullable self = true \/ items <> []).
Proof.
  unfold ClientIDsField_validate. split.
  - destruct v as [|b|n|s|l|d], (required self), (nullable self); cbn;
      intros H; try discriminate H; exists l;
      (destruct (forallb Py.is_int l) eqn:E; [|discriminate H]);
      (split; [reflexivity | split; [reflexivity|]]);
      first [ left; reflexivity
            | right; intros ->; discriminate H ].
  - intros [items [-> [Hall Hne]]].
    destruct items, (required self), (nullable self); cbn in Hall |- *;
      rewrite ?Hall; try reflexivity;
      (destruct Hne as [Hne|Hne];
       [discriminate Hne | exfalso; apply Hne; reflexivity]).
Qed.

(** X5: a field of arguments accepts exactly the dicts, the empty one only
    when the field is nullable; [None] is rejected whatever the flags. *)
Theorem X5_ArgumentsField_accepts (self : descriptor) (v : pyval) :
  fst (ArgumentsField_validate self v) = true
  <-> exists d, v = PDict d /\ (nullable self = true \/ d <> []).
Proof.
  unfold ArgumentsField_validate. split.
  - destruct v as [|b|n|s|l|d], (required self), (nullable self); cbn;
      intros H; try discriminate H; exists d; (split; [reflexivity|]);
      first [ left; reflexivity
            | right; intros ->; discriminate H ].
  - intros [d [-> Hne]].
    destruct d, (required self), (nullable self); cbn; try reflexivity;
      (destruct Hne as [Hne|Hne];
       [discriminate Hne | exfalso; apply Hne; reflexivity]).
Qed.

End ValidatorCharacterisations.

(* ===================================================================== *)
(** * Dates written DD.MM.YYYY *)
(* ===================================================================== *)

Section DateTexts.

Import Validators.

Lemma digit_value_digit (k : Z) :
  0 <= k < 10 -> Datetime.digit_value (Py.digit k) = k.
Proof.
  intros Hk.
  assert (H : k = 0 \/ k = 1 \/ k = 2 \/ k = 3 \/ k = 4 \/ k = 5 \/ k = 6 \/
              k = 7 \/ k = 8 \/ k = 9) by lia.
  repeat (destruct H as [->|H]; [reflexivity|]). subst k. reflexivity.
Qed.

Lemma digit_of_digit_value (c : ascii) :
  Datetime.is_digit c = true -> Py.digit (Datetime.digit_value c) = c.
Proof.
  intros Hc. apply digit_value_bounds in Hc.
  unfold Py.digit, Datetime.digit_value, Py.code in *.
  replace (48 + (Z.of_N (N_of_ascii c) - 48)) with (Z.of_N (N_of_ascii c)) by lia.
  rewrite N2Z.id. apply ascii_N_embedding.
Qed.

Lemma digit_is_not_dot (c : ascii) :
  Datetime.is_digit c = true -> Datetime.is_dot c = false.
Proof.
  unfold Datetime.is_digit, Datetime.is_dot. intros H.
  apply andb_prop in H. destruct H as [H _]. apply Z.leb_le in H.
  apply Z.eqb_neq. lia.
Qed.

Lemma digit_is_not_blank (c : ascii) :
  Datetime.is_digit c = true -> (Py.code c =? 32) = false.
Proof.
  unfold Datetime.is_digit. intros H.
  apply andb_prop in H. destruct H as [H _]. apply Z.leb_le in H.
  apply Z.eqb_neq. lia.
Qed.

Lemma first_match_day {B : Type} (d1 d2 : ascii) (rest : list ascii)
    (k : Z -> list ascii -> option B) :
  Datetime.is_digit d1 = true -> Datetime.is_digit d2 = true ->
  Datetime.first_match (Datetime.day_alts (d1 :: d2 :: rest))
    (fun d r1 => Datetime.expect_dot r1 (k d))
  = if day_guard (Datetime.digit_value d1) (Datetime.digit_value d2)
    then Datetime.expect_dot rest
           (k (10 * Datetime.digit_value d1 + Datetime.digit_value d2))
    else None.
Proof.
  intros H1 H2. unfold Datetime.day_alts.
  rewrite H1, H2, (digit_is_not_blank d1 H1). cbn [andb app].
  fold (day_guard (Datetime.digit_value d1) (Datetime.digit_value d2)).
  assert (Hone : forall v, Datetime.expect_dot (d2 :: rest) (k v) = None).
  { intros v. unfold Datetime.expect_dot. now rewrite (digit_is_not_dot d2 H2). }
  destruct (day_guard _ _), (negb (Datetime.digit_value d1 =? 0));
    cbn [app Datetime.first_match]; rewrite ?Hone;
    try destruct (Datetime.expect_dot rest _); reflexivity.
Qed.

Lemma first_match_month {B : Type} (m1 m2 : ascii) (rest : list ascii)
    (k : Z -> list ascii -> option B) :
  Datetime.is_digit m1 = true -> Datetime.is_digit m2 = true ->
  Datetime.first_match (Datetime.month_alts (m1 :: m2 :: rest))
    (fun m r3 => Datetime.expect_dot r3 (k m))
  = if month_guard (Datetime.digit_value m1) (Datetime.digit_value m2)
    then Datetime.expect_dot rest
           (k (10 * Datetime.digit_value m1 + Datetime.digit_value m2))
    else None.
Proof.
  intros H1 H2. unfold Datetime.month_alts.
  rewrite H1, H2. cbn [andb app].
  fold (month_guard (Datetime.digit_value m1) (Datetime.digit_value m2)).
  assert (Hone : forall v, Datetime.expect_dot (m2 :: rest) (k v) = None).
  { intros v. unfold Datetime.expect_dot. now rewrite (digit_is_not_dot m2 H2). }
  destruct (month_guard _ _), (negb (Datetime.digit_value m1 =? 0));
    cbn [app Datetime.first_match]; rewrite ?Hone;
    try destruct (Datetime.expect_dot rest _); reflexivity.
Qed.

(** What the format finds in ten characters of the pattern. *)
Lemma match_dmY_on_pattern (d1 d2 p1 m1 m2 p2 y1 y2 y3 y4 : ascii)
    (tail : list ascii) :
  Datetime.is_digit d1 = true -> Datetime.is_digit d2 = true ->
  Datetime.is_dot p1 = true ->
  Datetime.is_digit m1 = true -> Datetime.is_digit m2 = true ->
  Datetime.is_dot p2 = true ->
  Datetime.is_digit y1 = true -> Datetime.is_digit y2 = true ->
  Datetime.is_digit y3 = true -> Datetime.is_digit y4 = true ->
  Datetime.match_dmY
    (d1 :: d2 :: p1 :: m1 :: m2 :: p2 :: y1 :: y2 :: y3 :: y4 :: tail)
  = if day_guard (Datetime.digit_value d1) (Datetime.digit_value d2)
       && month_guard (Datetime.digit_value m1) (Datetime.digit_value m2)
    then Some (10 * Datetime.digit_value d1 + Datetime.digit_value d2,
               10 * Datetime.digit_value m1 + Datetime.digit_value m2,
               1000 * Datetime.digit_value y1 + 100 * Datetime.digit_value y2
               + 10 * Datetime.digit_value y3 + Datetime.digit_value y4,
               tail)
    else None.
Proof.
  intros Hd1 Hd2 Hp1 Hm1 Hm2 Hp2 Hy1 Hy2 Hy3 Hy4.
  unfold Datetime.match_dmY.
  rewrite (first_match_day d1 d2 _ _ Hd1 Hd2).
  destruct (day_guard _ _); [|reflexivity]. cbn [andb].
  unfold Datetime.expect_dot at 1. rewrite Hp1.
  rewrite (first_match_month m1 m2 _ _ Hm1 Hm2).
  destruct (month_guard _ _); [|reflexivity].
  unfold Datetime.expect_dot, Datetime.year_alts. rewrite Hp2.
  rewrite Hy1, Hy2, Hy3, Hy4. reflexivity.
Qed.

Lemma days_in_month_le_31 (y m : Z) : Datetime.days_in_month y m <= 31.
Proof.
  unfold Datetime.days_in_month.
  destruct (m =? 2); [destruct (Datetime.is_leap y); lia|].
  destruct (_ || _); lia.
Qed.

Lemma day_guard_holds (d : Z) : 1 <= d <= 31 -> day_guard (d / 10) (d mod 10) = true.
Proof.
  intros Hd.
  assert (H : (d / 10 = 0 /\ d mod 10 <> 0) \/ d / 10 = 1 \/ d / 10 = 2
              \/ (d / 10 = 3 /\ d mod 10 <= 1))
    by (Z.to_euclidean_division_equations; lia).
  unfold day_guard.
  destruct H as [[Ha Hb]|[Ha|[Ha|[Ha Hb]]]]; rewrite Ha; cbn.
  - apply negb_true_iff. apply Z.eqb_neq. exact Hb.
  - reflexivity.
  - reflexivity.
  - apply Z.leb_le in Hb. rewrite Hb. reflexivity.
Qed.

Lemma month_guard_holds (m : Z) :
  1 <= m <= 12 -> month_guard (m / 10) (m mod 10) = true.
Proof.
  intros Hm.
  assert (H : (m / 10 = 0 /\ m mod 10 <> 0) \/ (m / 10 = 1 /\ m mod 10 <= 2))
    by (Z.to_euclidean_division_equations; lia).
  unfold month_guard.
  destruct H as [[Ha Hb]|[Ha Hb]]; rewrite Ha; cbn.
  - apply negb_true_iff. apply Z.eqb_neq. exact Hb.
  - apply Z.leb_le in Hb. rewrite Hb. reflexivity.
Qed.

(** Writing a date and reading it back gives the date. *)
Lemma strptime_date_text (d m y : Z) :
  calendar_date d m y ->
  Datetime.date_pattern_match (date_text d m y) = true
  /\ Datetime.strptime_dmY (date_text d m y)
     = Ok {| Datetime.year := y; Datetime.month := m; Datetime.day := d;
             Datetime.hour := 0 |}.
Proof.
  intros (Hy & Hm & Hd).
  pose proof (days_in_month_le_31 y m) as H31.
  assert (Dd1 : 0 <= d / 10 < 10) by (Z.to_euclidean_division_equations; lia).
  assert (Dd2 : 0 <= d mod 10 < 10) by (Z.to_euclidean_division_equations; lia).
  assert (Dm1 : 0 <= m / 10 < 10) by (Z.to_euclidean_division_equations; lia).
  assert (Dm2 : 0 <= m mod 10 < 10) by (Z.to_euclidean_division_equations; lia).
  assert (Dy1 : 0 <= y / 1000 < 10) by (Z.to_euclidean_division_equations; lia).
  assert (Dy2 : 0 <= y / 100 mod 10 < 10)
    by (Z.to_euclidean_division_equations; lia).
  assert (Dy3 : 0 <= y / 10 mod 10 < 10)
    by (Z.to_euclidean_division_equations; lia).
  assert (Dy4 : 0 <= y mod 10 < 10) by (Z.to_euclidean_division_equations; lia).
  split.
  - unfold Datetime.date_pattern_match, date_text, two_digits, four_digits.
    cbn [append list_ascii_of_string].
    rewrite !digit_is_digit by assumption. reflexivity.
  - unfold Datetime.strptime_dmY, date_text, two_digits, four_digits.
    cbn [append list_ascii_of_string].
    rewrite match_dmY_on_pattern
      by first [apply digit_is_digit; assumption | reflexivity].
    rewrite !digit_value_digit by assumption.
    rewrite (day_guard_holds d) by lia.
    rewrite (month_guard_holds m) by lia. cbn [andb].
    replace (10 * (d / 10) + d mod 10) with d
      by (Z.to_euclidean_division_equations; lia).
    replace (10 * (m / 10) + m mod 10) with m
      by (Z.to_euclidean_division_equations; lia).
    replace (1000 * (y / 1000) + 100 * (y / 100 mod 10) + 10 * (y / 10 mod 10)
             + y mod 10) with y
      by (Z.to_euclidean_division_equations; lia).
    destruct (Z.eqb_spec y 0); [lia|].
    destruct (Z.ltb_spec (Datetime.days_in_month y m) d); [lia|].
    reflexivity.
Qed.

Lemma list_ascii_nil (s : string) : list_ascii_of_string s = [] -> s = "".
Proof. destruct s; [reflexivity | discriminate]. Qed.

(** Among the texts this development holds, whose characters are code
    points below 256, a text that carries the pattern and that [strptime]
    converts is the date it is converted to, written DD.MM.YYYY.  (Python
    takes any decimal digit of Unicode for [\d]; the only ones below 256
    are 0 to 9.) *)
Lemma converted_text_is_canonical (s : string) (dt : Datetime.datetime) :
  Datetime.date_pattern_match s = true ->
  Datetime.strptime_dmY s = Ok dt ->
  s = date_text (Datetime.day dt) (Datetime.month dt) (Datetime.year dt).
Proof.
  unfold Datetime.date_pattern_match, Datetime.strptime_dmY.
  destruct s as [|d1 [|d2 [|p1 [|m1 [|m2 [|p2 [|y1 [|y2 [|y3 [|y4 tail]]]]]]]]]];
    cbn [list_ascii_of_string]; try discriminate.
  intros H.
  repeat match type of H with
         | (_ && _) = true =>
             let G := fresh "G" in apply andb_prop in H; destruct H as [H G]
         end.
  rewrite match_dmY_on_pattern by assumption.
  destruct (day_guard _ _ && month_guard _ _); [|discriminate].
  destruct (list_ascii_of_string tail) eqn:Et; [|discriminate].
  apply list_ascii_nil in Et. subst tail.
  destruct (_ =? 0); [discriminate|]. destruct (_ <? _); [discriminate|].
  intros Hok.
  apply (f_equal (fun r => match r with Ok x => x | Raise _ => dt end)) in Hok.
  cbv beta iota in Hok. subst dt.
  cbn [Datetime.day Datetime.month Datetime.year].
  repeat match goal with
         | Hc : Datetime.is_digit ?c = true |- _ =>
             pose proof (digit_value_bounds c Hc);
             pose proof (digit_of_digit_value c Hc);
             clear Hc
         end.
  unfold date_text, two_digits, four_digits. cbn [append].
  repeat match goal with
         | Hdot : Datetime.is_dot ?c = true |- _ =>
             unfold Datetime.is_dot, Py.code in Hdot; apply Z.eqb_eq in Hdot;
             assert (c = "."%char)
               by (rewrite <- (ascii_N_embedding c);
                   replace (N_of_ascii c) with 46%N by lia; reflexivity);
             clear Hdot
         end.
  subst p1 p2.
  repeat match goal with
         | |- context [Py.digit ?e] =>
             lazymatch e with
             | Datetime.digit_value _ => fail
             | _ =>
                 match goal with
                 | Hb : 0 <= Datetime.digit_value ?c <= 9 |- _ =>
                     replace e with (Datetime.digit_value c)
                       by (Z.to_euclidean_division_equations; lia)
                 end
             end
         end.
  congruence.
Qed.

Lemma DateField_date_text (self : descriptor) (d m y : Z) :
  calendar_date d m y ->
  DateField_validate self (PStr (date_text d m y)) = Ok (true, None).
Proof.
  intros Hdate. destruct (strptime_date_text d m y Hdate) as [Hp Hs].
  unfold DateField_validate. cbn [Py.is_none Py.str].
  rewrite andb_false_r, Hp, Hs. cbn [negb].
  unfold Datetime.eq_date_min. rewrite andb_false_r. reflexivity.
Qed.

(** X7: a date field accepts every date of the calendar, years 1 to 9999,
    written DD.MM.YYYY with the digits 0 to 9, whatever its flags; and
    whatever it accepts is a text that [strptime] converts to a date of
    the calendar: no value that is not a text and no impossible date is
    accepted. *)
Theorem X7_DateField_accepts (self : descriptor) :
  (forall d m y, calendar_date d m y ->
     DateField_validate self (PStr (date_text d m y)) = Ok (true, None))
  /\ (forall v, DateField_validate self v = Ok (true, None) ->
      exists s dt,
        v = PStr s /\ Datetime.strptime_dmY s = Ok dt
        /\ calendar_date (Datetime.day dt) (Datetime.month dt)
                         (Datetime.year dt)).
Proof.
  split.
  - intros d m y Hdate. apply DateField_date_text. exact Hdate.
  - intros v H.
    destruct (DateField_accepts_real_dates self v H)
      as (s & dt & -> & _ & Hs & Hy & Hm & Hd).
    exists s, dt. repeat split; try assumption; lia.
Qed.

Lemma X7_DateField_accepts_witness :
  DateField_validate (descriptor_of CI_date) (PStr "29.02.2000")
  = Ok (true, None)
  /\ exists s dt,
       PStr "29.02.2000" = PStr s /\ Datetime.strptime_dmY s = Ok dt
       /\ calendar_date (Datetime.day dt) (Datetime.month dt)
                        (Datetime.year dt).
Proof.
  destruct (X7_DateField_accepts (descriptor_of CI_date)) as [Hall Honly].
  assert (H : DateField_validate (descriptor_of CI_date) (PStr "29.02.2000")
              = Ok (true, None)).
  { apply (Hall 29 2 2000). unfold calendar_date. cbn. lia. }
  split; [exact H | exact (Honly (PStr "29.02.2000") H)].
Defined.

(** X6: for a date of the calendar written DD.MM.YYYY, a birthday field
    passes exactly when the year is greater than the current year minus
    70; day and month play no part, and the failure is a returned pair
    with the message about 70 years. *)
Theorem X6_BirthDayField_year_rule (now : Datetime.datetime)
    (self : descriptor) (d m y : Z) :
  calendar_date d m y ->
  BirthDayField_validate now self (PStr (date_text d m y))
  = Ok (if y >? Datetime.year now - 70 then (true, None)
        else (false, Some (name self ++ " must be less than 70 years old"))).
Proof.
  intros Hdate. unfold BirthDayField_validate.
  rewrite (DateField_date_text self d m y Hdate). cbn [negb Py.str].
  destruct (strptime_date_text d m y Hdate) as [_ ->].
  cbn [Datetime.year]. destruct (y >? Datetime.year now - 70); reflexivity.
Qed.

Lemma X6_BirthDayField_year_rule_witness :
  BirthDayField_validate (at_hour 2026 11 3 13) (descriptor_of OS_birthday)
    (PStr "31.12.1956")
  = Ok (false, Some "birthday must be less than 70 years old")
  /\ BirthDayField_validate (at_hour 2026 11 3 13) (descriptor_of OS_birthday)
       (PStr "01.01.1957")
     = Ok (true, None).
Proof.
  split.
  - apply (X6_BirthDayField_year_rule (at_hour 2026 11 3 13)
             (descriptor_of OS_birthday) 31 12 1956).
    unfold calendar_date. cbn. lia.
  - apply (X6_BirthDayField_year_rule (at_hour 2026 11 3 13)
             (descriptor_of OS_birthday) 1 1 1957).
    unfold calendar_date. cbn. lia.
Defined.

End DateTexts.

(* ===================================================================== *)
(** * Assignments and constructors *)
(* ===================================================================== *)

Section Constructors.

(** X8: assigning to a field either keeps the value, which is then what
    the field reads, and changes no other field, the context or the
    generator; or raises and leaves the world as it was. *)
Theorem X8_descriptor_set_then_get (f : field) (v : pyval) (w : world) :
  match descriptor_set f v w with
  | (Ok _, w') =>
      descriptor_get f w' = (Ok v, w')
      /\ (forall g, g <> f -> values w' g = values w g)
      /\ ctx w' = ctx w /\ rng w' = rng w /\ now w' = now w
  | (Raise _, w') => w' = w
  end.
Proof.
  destruct (descriptor_set f v w) as [[u|e] w'] eqn:E.
  - apply descriptor_set_ok in E. destruct E as [-> _].
    unfold descriptor_get. rewrite values_set_same.
    repeat split; try reflexivity.
    intros g Hg. apply values_set_other. exact Hg.
  - apply descriptor_set_raise in E. exact E.
Qed.

Lemma BirthDayField_valid_truthy now (self : descriptor) (v : pyval) e :
  Validators.BirthDayField_validate now self v = Ok (true, e) ->
  Py.truthy v = true.
Proof.
  unfold Validators.BirthDayField_validate, Validators.DateField_validate.
  destruct (required self && Py.is_none v); [discriminate|].
  destruct (Datetime.date_pattern_match (Py.str v)) eqn:Hp; [|discriminate].
  intros _. destruct (date_pattern_only_in_text v Hp) as [s ->].
  cbn [Py.str] in Hp. destruct s; [discriminate Hp | reflexivity].
Qed.

(** What a constructed score request holds: each field is what the
    arguments give under its name. *)
Lemma constructed_score_fields (d : dict) (w w' : world) u :
  OnlineScoreRequest.init (PDict d) w = (Ok u, w') ->
  values w' OS_phone = Py.dict_get d "phone" PNone
  /\ values w' OS_email = Py.dict_get d "email" PNone
  /\ values w' OS_first_name = Py.dict_get d "first_name" PNone
  /\ values w' OS_last_name = Py.dict_get d "last_name" PNone
  /\ values w' OS_birthday = Py.dict_get d "birthday" PNone
  /\ values w' OS_gender = Py.dict_get d "gender" PNone
  /\ Py.truthy (Py.dict_get d "phone" PNone) = true
  /\ Py.truthy (Py.dict_get d "email" PNone) = true
  /\ Py.truthy (Py.dict_get d "birthday" PNone) = true.
Proof.
  intros H. unfold OnlineScoreRequest.init in H. peel H.
  apply descriptor_set_ok in H. destruct H as [-> _].
  cbn [Py.get] in *.
  repeat match goal with
         | Hg : Ok (Py.dict_get d _ PNone) = Ok _ |- _ =>
             inversion Hg; clear Hg; subst
         end.
  destruct Hc0 as [e0 Hc0]. destruct Hc2 as [e2 Hc2]. destruct Hc8 as [e8 Hc8].
  unfold Validators.validate in Hc0, Hc2, Hc8.
  cbn [descriptor_of field_kind] in Hc0, Hc2, Hc8.
  inversion Hc0 as [Hp]. inversion Hc2 as [He].
  apply PhoneField_valid_truthy in Hp.
  apply EmailField_valid_truthy in He; [|reflexivity].
  apply BirthDayField_valid_truthy in Hc8.
  read_values. repeat split; try reflexivity; assumption.
Qed.

(** X9: a score request that constructs always scores 3.0 for its phone
    and email, plus 1.5 when its gender is neither 0 nor False and plus
    0.5 when both
    names are non-empty texts: [execute] returns 3.0, 3.5, 4.5 or 5.0 and
    never raises. *)
Theorem X9_constructed_score (d : dict) (w w' : world) u :
  OnlineScoreRequest.init (PDict d) w = (Ok u, w') ->
  OnlineScoreRequest.execute w'
  = (Ok (ScoreDict (NFloat
       (if Py.truthy (Py.dict_get d "gender" PNone)
        then (if Py.truthy (Py.dict_get d "first_name" PNone)
                 && Py.truthy (Py.dict_get d "last_name" PNone)
              then 5.0 else 4.5)
        else (if Py.truthy (Py.dict_get d "first_name" PNone)
                 && Py.truthy (Py.dict_get d "last_name" PNone)
              then 3.5 else 3.0))%float)), w').
Proof.
  intros H.
  rewrite (constructed_score_arguments_execute _ _ _ _ H).
  destruct (constructed_score_fields _ _ _ _ H)
    as (Hp & He & Hf & Hl & Hb & Hg & Tp & Te & Tb).
  unfold score_of. rewrite Hp, He, Hf, Hl, Hb, Hg.
  rewrite get_score_by_cases, Tp, Te, Tb.
  destruct (Py.truthy (Py.dict_get d "gender" PNone)),
    (Py.truthy (Py.dict_get d "first_name" PNone)
     && Py.truthy (Py.dict_get d "last_name" PNone)); reflexivity.
Qed.

Lemma X9_constructed_score_witness :
  OnlineScoreRequest.execute
    (snd (OnlineScoreRequest.init (PDict valid_score_arguments) fresh_world))
  = (Ok (ScoreDict (NFloat 5.0%float)),
     snd (OnlineScoreRequest.init (PDict valid_score_arguments) fresh_world)).
Proof.
  apply (X9_constructed_score valid_score_arguments fresh_world _ tt).
  reflexivity.
Defined.

(** X10: constructing a request for interests either succeeds, and then
    the two fields hold what the arguments give and nothing else changed;
    or raises, and then either nothing changed or client_ids was already
    replaced by the new list, the one that a request built earlier will
    now read. *)
Theorem X10_interests_constructor (d : dict) (w : world) :
  match ClientsInterestsRequest.init (PDict d) w with
  | (Ok _, w') =>
      values w' CI_client_ids = Py.dict_get d "client_ids" PNone
      /\ values w' CI_date = Py.dict_get d "date" PNone
      /\ (forall g, g <> CI_client_ids -> g <> CI_date ->
          values w' g = values w g)
      /\ ctx w' = ctx w /\ rng w' = rng w
  | (Raise _, w') =>
      w' = w
      \/ w' = set_value w CI_client_ids (Py.dict_get d "client_ids" PNone)
  end.
Proof.
  unfold ClientsInterestsRequest.init, bind, lift. cbn [Py.get].
  destruct (descriptor_set CI_client_ids _ w) as [[u|e] w1] eqn:E1.
  - apply descriptor_set_ok in E1. destruct E1 as [-> _].
    destruct (descriptor_set CI_date _ _) as [[u'|e] w2] eqn:E2.
    + apply descriptor_set_ok in E2. destruct E2 as [-> _].
      read_values. repeat split; try reflexivity.
      intros g G1 G2. rewrite !values_set_other by assumption. reflexivity.
    + apply descriptor_set_raise in E2. right. exact E2.
  - apply descriptor_set_raise in E1. left. exact E1.
Qed.

End Constructors.

(* ===================================================================== *)
(** * Further properties of the envelope and the dispatcher *)
(* ===================================================================== *)

Section HandlerOutcomes.



(** X12: a constructed envelope holds what the body gives under each name:
    login and token are texts, method is a non-empty text, arguments is a
    dict and account is a text or absent. *)
Theorem X12_constructed_envelope (request : dict) (w w1 : world) inst :
  MethodRequest.init request w = (Ok inst, w1) ->
  exists body,
    Py.dict_get request "body" (PDict []) = PDict body
    /\ MethodRequest.body inst = PDict body
    /\ values w1 MR_account = Py.dict_get body "account" PNone
    /\ values w1 MR_login = Py.dict_get body "login" PNone
    /\ values w1 MR_token = Py.dict_get body "token" PNone
    /\ values w1 MR_arguments = Py.dict_get body "arguments" PNone
    /\ values w1 MR_method = Py.dict_get body "method" PNone
    /\ (exists login, values w1 MR_login = PStr login)
    /\ (exists token, values w1 MR_token = PStr token)
    /\ (exists m, values w1 MR_method = PStr m /\ m <> "")
    /\ (exists d, values w1 MR_arguments = PDict d)
    /\ (values w1 MR_account = PNone \/ exists a, values w1 MR_account = PStr a).
Proof.
  intros Hinit.
  destruct (constructed_envelope _ _ _ _ Hinit)
    as (Ha & Hl & Ht & Hd & [m Hm] & _).
  unfold MethodRequest.init in Hinit.
  destruct (Py.dict_get request "body" (PDict [])) as [|b|n|s|l|body] eqn:Eb;
    try (apply bind_ok in Hinit; destruct Hinit as (a & w0 & Hc & _);
         discriminate Hc).
  exists body. split; [reflexivity|].
  peel Hinit. unfold ret in Hinit. inversion Hinit; subst; clear Hinit.
  cbn [Py.get] in *.
  repeat match goal with
         | Hg : Ok (Py.dict_get body _ PNone) = Ok _ |- _ =>
             inversion Hg; clear Hg; subst
         end.
  assert (Hne : m <> "").
  { destruct Hc8 as [e Hc8]. revert Hm. read_values. intros Hm.
    rewrite Hm in Hc8. intros ->. discriminate Hc8. }
  revert Ha Hl Ht Hd Hm. read_values. intros Ha Hl Ht Hd Hm.
  repeat split; try reflexivity; try assumption.
  exists m. split; assumption.
Qed.

Lemma X12_constructed_envelope_witness :
  exists body,
    Py.dict_get (envelope "h&f" user_token "online_score" []) "body" (PDict [])
    = PDict body
    /\ Py.dict_get body "method" PNone = PStr "online_score".
Proof.
  destruct (X12_constructed_envelope
              (envelope "h&f" user_token "online_score" []) fresh_world _
              {| MethodRequest.body :=
                   Py.dict_get (envelope "h&f" user_token "online_score" [])
                               "body" (PDict []) |} eq_refl)
    as (body & Hb & _ & _ & _ & _ & _ & Hm & _).
  exists body. split; [exact Hb|].
  rewrite <- Hm. cbn in Hb. inversion Hb; subst. reflexivity.
Defined.

(** X13: a body without login, whose account is a text or absent, is
    answered 422 with the message that login is required, whatever else
    it holds; only the account field has been assigned by then. *)
Theorem X13_missing_login (body : dict) (w : world) :
  Py.lookup body "login" = None ->
  (Py.dict_get body "account" PNone = PNone
   \/ exists a, Py.dict_get body "account" PNone = PStr a) ->
  Api.method_handler [("body", PDict body)] w
  = (Ok (Message "Invalid field value for login: login is required",
         Api.INVALID_REQUEST),
     set_value w MR_account (Py.dict_get body "account" PNone)).
Proof.
  intros Hl Ha.
  unfold Api.method_handler, Api.method_handler_with, MethodRequest.init.
  cbn [Py.dict_get Py.lookup String.eqb Ascii.eqb Bool.eqb Py.get].
  change (Py.lookup [("body", PDict body)] "body") with (Some (PDict body)).
  cbv iota. cbn [Py.get].
  unfold bind at 1. unfold try_except_ValueError.
  unfold bind at 1. unfold bind at 1. unfold lift at 1.
  unfold bind at 1.
  assert (Hset : descriptor_set MR_account (Py.dict_get body "account" PNone) w
                 = (Ok tt, set_value w MR_account
                                     (Py.dict_get body "account" PNone))).
  { unfold descriptor_set. destruct Ha as [->|[a ->]]; reflexivity. }
  rewrite Hset.
  unfold bind at 1. unfold lift at 1. unfold bind at 1.
  rewrite (dict_get_absent _ _ Hl). reflexivity.
Qed.

Lemma X13_missing_login_witness :
  Api.method_handler [("body", PDict [("method", PStr "online_score")])]
    fresh_world
  = (Ok (Message "Invalid field value for login: login is required", 422),
     set_value fresh_world MR_account PNone).
Proof.
  apply (X13_missing_login [("method", PStr "online_score")] fresh_world).
  - reflexivity.
  - left. reflexivity.
Defined.

Lemma check_auth_outcome (w : world) :
  (exists b, MethodRequest.check_auth w = (Ok b, w))
  \/ (exists e, MethodRequest.check_auth w = (Raise e, w)).
Proof.
  pose proof (check_auth_reads_only w) as Hw.
  destruct (MethodRequest.check_auth w) as [[b|e] w']; cbn in Hw; subst w'.
  - left. exists b. reflexivity.
  - right. exists e. reflexivity.
Qed.

(** X14: an authenticated request for a method other than online_score
    and clients_interests is answered "Invalid method" with status 422; no
    argument schema is constructed and the context is untouched. *)
Theorem X14_unknown_method (request : dict) (w w1 : world) inst (m : string) :
  MethodRequest.init request w = (Ok inst, w1) ->
  MethodRequest.check_auth w1 = (Ok true, w1) ->
  values w1 MR_method = PStr m ->
  m <> "online_score" -> m <> "clients_interests" ->
  Api.method_handler request w
  = (Ok (Message "Invalid method", Api.INVALID_REQUEST), w1).
Proof.
  intros Hinit Hca Hm H1 H2.
  unfold Api.method_handler, Api.method_handler_with.
  rewrite (bind_step _ _ _ _ _ (handler_first_try _ _ _ _ Hinit)).
  rewrite (bind_step _ _ _ _ _ Hca). cbn [negb].
  unfold try_except_ValueError.
  unfold bind at 1. unfold descriptor_get at 1.
  rewrite Hm. cbn [Py.eq_str].
  apply String.eqb_neq in H1. apply String.eqb_neq in H2.
  rewrite H1, H2. reflexivity.
Qed.

Lemma X14_unknown_method_witness :
  fst (Api.method_handler (envelope "h&f" user_token "no such method" [])
         fresh_world)
  = Ok (Message "Invalid method", 422).
Proof.
  refine (f_equal fst (X14_unknown_method
            (envelope "h&f" user_token "no such method" []) fresh_world _
            {| MethodRequest.body :=
                 Py.dict_get (envelope "h&f" user_token "no such method" [])
                             "body" (PDict []) |}
            "no such method" _ _ _ _ _)).
  - reflexivity.
  - vm_compute. reflexivity.
  - reflexivity.
  - discriminate.
  - discriminate.
Defined.

Lemma handler_outcomes (request : dict) (w w' : world)
    (response : payload) (code : Z) :
  Api.method_handler request w = (Ok (response, code), w') ->
  (code = Api.OK /\ exists m, response = InterestsDict m)
  \/ (code = Api.FORBIDDEN /\ response = Message "Forbidden")
  \/ (code = Api.INVALID_REQUEST /\ exists msg, response = Message msg).
Proof.
  intros H. unfold Api.method_handler, Api.method_handler_with in H.
  unfold bind at 1 in H. unfold try_except_ValueError at 1 in H.
  unfold bind at 1 in H.
  destruct (MethodRequest.init request w) as [[inst|[msg|msg|msg]] w1];
    cbn [ret] in H; try discriminate H.
  2: { inversion H; subst. right. right. split; [reflexivity | eexists; reflexivity]. }
  destruct (check_auth_outcome w1) as [[b Hca]|[e Hca]].
  2: { rewrite (bind_raise _ _ _ _ _ Hca) in H. discriminate H. }
  rewrite (bind_step _ _ _ _ _ Hca) in H.
  destruct b; cbn [negb] in H.
  2: { inversion H; subst. right. left. split; reflexivity. }
  unfold try_except_ValueError in H.
  unfold bind at 1 in H. unfold descriptor_get at 1 in H.
  destruct (Py.eq_str (values w1 MR_method) "online_score").
  - unfold bind at 1 in H. unfold descriptor_get at 1 in H.
    unfold bind at 1 in H.
    destruct (OnlineScoreRequest.init (values w1 MR_arguments) w1)
      as [[u|[msg|msg|msg]] w2]; cbn in H; try discriminate H.
    inversion H; subst. right. right. split; [reflexivity | eexists; reflexivity].
  - destruct (Py.eq_str (values w1 MR_method) "clients_interests").
    + match type of H with
      | (let (r, w0) := ?c in _) = _ =>
          destruct c as [[[p k]|[msg|msg|msg]] w2] eqn:E
      end; try discriminate H.
      * inversion H; subst; clear H. left.
        repeat (apply bind_ok in E; destruct E as (? & ? & _ & E)).
        unfold ret in E. inversion E; subst.
        split; [reflexivity | eexists; reflexivity].
      * inversion H; subst. right. right.
        split; [reflexivity | eexists; reflexivity].
    + cbn [ret] in H. inversion H; subst. right. right.
      split; [reflexivity | eexists; reflexivity].
Qed.

(** X15: whenever the dispatcher returns, it returns one of three things:
    a dict of interests with status 200, the text "Forbidden" with status
    403, or a message with status 422.  In particular it returns no score
    and no other status. *)
Theorem X15_handler_outcomes (request : dict) (w w' : world)
    (response : payload) (code : Z) :
  Api.method_handler request w = (Ok (response, code), w') ->
  (code = Api.OK /\ exists m, response = InterestsDict m)
  \/ (code = Api.FORBIDDEN /\ response = Message "Forbidden")
  \/ (code = Api.INVALID_REQUEST /\ exists msg, response = Message msg).
Proof. exact (handler_outcomes request w w' response code). Qed.

Lemma X15_handler_outcomes_witness :
  (403 = Api.OK /\ exists m, Message "Forbidden" = InterestsDict m)
  \/ (403 = Api.FORBIDDEN /\ Message "Forbidden" = Message "Forbidden")
  \/ (403 = Api.INVALID_REQUEST /\ exists msg, Message "Forbidden" = Message msg).
Proof.
  apply (X15_handler_outcomes
           (envelope "h&f" "bad token" "online_score" valid_score_arguments)
           fresh_world
           (snd (Api.method_handler
                   (envelope "h&f" "bad token" "online_score"
                             valid_score_arguments) fresh_world))
           (Message "Forbidden") 403).
  vm_compute. reflexivity.
Defined.

End HandlerOutcomes.

(* ===================================================================== *)
(** * Interests for any list of clients *)
(* ===================================================================== *)

Section InterestsInGeneral.

Lemma get_interests_draws (store cid : pyval) (g : Random.generator) :
  exists tags,
    Scoring.get_interests store cid g
    = (Ok tags, {| Random.entropy := Random.entropy g;
                   Random.drawn := S (S (Random.drawn g)) |})
    /\ two_distinct_tags tags = true.
Proof.
  unfold Scoring.get_interests, Random.sample.
  change (List.length Scoring.interests) with 11%nat.
  change (11 <? 2)%nat with false. cbv iota.
  cbv beta iota zeta delta [Random.pick Random.randbelow Random.entropy
                            Random.drawn].
  change (11 - 1)%nat with 10%nat.
  eexists. split; [reflexivity|].
  apply selection_good; apply Nat.mod_upper_bound; discriminate.
Qed.

Lemma mapping_set_keys (m : mapping) (key : pyval) (v : list string) :
  mapping_keys (mapping_set m key v)
  = if existsb (Z.eqb (Py.int_value key)) (mapping_keys m)
    then mapping_keys m
    else (mapping_keys m ++ [Py.int_value key])%list.
Proof.
  induction m as [|[k x] rest IH]; cbn [mapping_set mapping_keys map existsb fst].
  - reflexivity.
  - rewrite (Z.eqb_sym (Py.int_value key) (Py.int_value k)).
    destruct (Py.int_value k =? Py.int_value key); cbn [orb map fst].
    + reflexivity.
    + fold (mapping_keys rest). fold (mapping_keys (mapping_set rest key v)).
      rewrite IH. destruct (existsb _ (mapping_keys rest)); reflexivity.
Qed.

Lemma mapping_set_values (P : list string -> Prop) (m : mapping) (key : pyval)
    (v : list string) :
  Forall (fun kv => P (snd kv)) m -> P v ->
  Forall (fun kv => P (snd kv)) (mapping_set m key v).
Proof.
  intros Hm Hv. induction m as [|[k x] rest IH]; cbn [mapping_set].
  - constructor; [exact Hv | constructor].
  - inversion Hm as [|? ? Hx Hrest]; subst.
    destruct (Py.int_value k =? Py.int_value key).
    + constructor; [exact Hv | exact Hrest].
    + constructor; [exact Hx | apply IH; exact Hrest].
Qed.

(** The loop of the comprehension: keys in order of first occurrence, two
    draws for each identifier, nothing else written. *)
Lemma collect_result (ids : list pyval) (acc : mapping) (w : world) :
  exists m w',
    ClientsInterestsRequest.collect ids acc w = (Ok m, w')
    /\ mapping_keys m
       = first_seen_into (mapping_keys acc) (map Py.int_value ids)
    /\ (Forall (fun kv => two_distinct_tags (snd kv) = true) acc ->
        Forall (fun kv => two_distinct_tags (snd kv) = true) m)
    /\ Random.drawn (rng w')
       = (Random.drawn (rng w) + 2 * List.length ids)%nat
    /\ values w' = values w /\ ctx w' = ctx w /\ now w' = now w.
Proof.
  revert acc w. induction ids as [|client_id rest IH]; intros acc w.
  - exists acc, w. cbn. repeat split; auto.
  - cbn [ClientsInterestsRequest.collect].
    destruct (get_interests_draws PNone client_id (rng w)) as (tags & E & G).
    rewrite E.
    destruct (IH (mapping_set acc client_id tags)
                 (set_rng w {| Random.entropy := Random.entropy (rng w);
                               Random.drawn := S (S (Random.drawn (rng w))) |}))
      as (m & w' & Ec & Hk & Hv & Hd & Hvals & Hctx & Hnow).
    exists m, w'. split; [exact Ec|].
    split; [|split; [|split; [|split; [|split]]]].
    + rewrite Hk, mapping_set_keys. reflexivity.
    + intros Hacc. apply Hv.
      apply (mapping_set_values (fun t => two_distinct_tags t = true));
        assumption.
    + rewrite Hd. cbn [rng set_rng Random.drawn List.length]. lia.
    + exact Hvals.
    + exact Hctx.
    + exact Hnow.
Qed.

Lemma first_seen_into_spec (seen l : list Z) :
  NoDup seen ->
  NoDup (first_seen_into seen l)
  /\ (forall x, In x (first_seen_into seen l) <-> In x seen \/ In x l).
Proof.
  revert seen. induction l as [|y rest IH]; intros seen Hnd; cbn [first_seen_into].
  - split; [exact Hnd|]. intros x. cbn. tauto.
  - destruct (existsb (Z.eqb y) seen) eqn:E.
    + destruct (IH seen Hnd) as [H1 H2]. split; [exact H1|].
      intros x. rewrite H2. cbn [In].
      apply existsb_exists in E. destruct E as (z & Hz & Hyz).
      apply Z.eqb_eq in Hyz. subst z.
      split; [tauto|]. intros [H|[<-|H]]; tauto.
    + assert (Hnot : ~ In y seen).
      { intros Hin. assert (existsb (Z.eqb y) seen = true).
        { apply existsb_exists. exists y. split; [exact Hin | apply Z.eqb_refl]. }
        congruence. }
      assert (Hnd' : NoDup (seen ++ [y])%list).
      { apply NoDup_app; [exact Hnd | repeat constructor; intros [] |].
        intros x Hx [<-|[]]. contradiction. }
      destruct (IH (seen ++ [y])%list Hnd') as [H1 H2]. split; [exact H1|].
      intros x. rewrite H2, in_app_iff. cbn [In]. tauto.
Qed.

Lemma execute_for_any_clients (w : world) (ids : list pyval) :
  values w CI_client_ids = PList ids ->
  forallb Py.is_int ids = true ->
  exists m w',
    ClientsInterestsRequest.execute w = (Ok m, w')
    /\ mapping_keys m = first_seen (map Py.int_value ids)
    /\ NoDup (mapping_keys m)
    /\ (forall x, In x (mapping_keys m) <-> In x (map Py.int_value ids))
    /\ Forall (fun kv => List.length (snd kv) = 2%nat /\ NoDup (snd kv)
                         /\ (forall t, In t (snd kv) -> In t Scoring.interests))
              m
    /\ Random.drawn (rng w')
       = (Random.drawn (rng w) + 2 * List.length ids)%nat
    /\ values w' = values w /\ ctx w' = ctx w.
Proof.
  intros Hids _.
  unfold ClientsInterestsRequest.execute, bind, descriptor_get. rewrite Hids.
  destruct (collect_result ids [] w)
    as (m & w' & Ec & Hk & Hv & Hd & Hvals & Hctx & _).
  exists m, w'. split; [exact Ec|].
  destruct (first_seen_into_spec [] (map Py.int_value ids) (NoDup_nil Z))
    as [Hnd Hin].
  cbn [mapping_keys map] in Hk. fold (first_seen (map Py.int_value ids)) in Hk.
  split; [exact Hk|]. rewrite Hk.
  split; [exact Hnd|].
  split; [intros x; unfold first_seen; rewrite Hin; cbn; tauto|].
  split; [|repeat split; assumption].
  specialize (Hv (Forall_nil _)).
  eapply Forall_impl; [|exact Hv].
  intros [k tags] Ht. cbn [snd] in *.
  destruct (two_distinct_tags_spec tags Ht) as (H1 & H2 & H3 & _).
  repeat split; assumption.
Qed.

(** X16: for any list of integer identifiers held by client_ids,
    [execute] returns a dict whose keys are the identifiers of the list,
    each once and in the order of first occurrence, every one bound to two
    different tags of the vocabulary; it makes two random draws for each
    element of the list, repeated ones included, and writes nothing else. *)
Theorem X16_interests_for_any_clients (w : world) (ids : list pyval) :
  values w CI_client_ids = PList ids ->
  forallb Py.is_int ids = true ->
  exists m w',
    ClientsInterestsRequest.execute w = (Ok m, w')
    /\ mapping_keys m = first_seen (map Py.int_value ids)
    /\ NoDup (mapping_keys m)
    /\ (forall x, In x (mapping_keys m) <-> In x (map Py.int_value ids))
    /\ Forall (fun kv => List.length (snd kv) = 2%nat /\ NoDup (snd kv)
                         /\ (forall t, In t (snd kv) -> In t Scoring.interests))
              m
    /\ Random.drawn (rng w')
       = (Random.drawn (rng w) + 2 * List.length ids)%nat
    /\ values w' = values w /\ ctx w' = ctx w.
Proof. exact (execute_for_any_clients w ids). Qed.

Lemma X16_interests_for_any_clients_witness :
  exists m w',
    ClientsInterestsRequest.execute
      (world_with [(CI_client_ids, PList [PInt 2; PInt 1; PInt 2])])
    = (Ok m, w')
    /\ mapping_keys m = [2; 1]
    /\ Random.drawn (rng w') = 6%nat.
Proof.
  destruct (X16_interests_for_any_clients
              (world_with [(CI_client_ids, PList [PInt 2; PInt 1; PInt 2])])
              [PInt 2; PInt 1; PInt 2] eq_refl eq_refl)
    as (m & w' & E & Hk & _ & _ & _ & Hd & _).
  exists m, w'. split; [exact E|]. split; [exact Hk | exact Hd].
Defined.

End InterestsInGeneral.

(* ===================================================================== *)
(** * The dispatcher on requests for interests, and the HTTP handler *)
(* ===================================================================== *)

Section InterestsThroughTheHandler.

Lemma lookup_dict_set (d : dict) (key : string) (v : pyval) :
  Py.lookup (Py.dict_set d key v) key = Some v.
Proof.
  induction d as [|[k x] rest IH]; cbn [Py.dict_set Py.lookup].
  - rewrite String.eqb_refl. reflexivity.
  - destruct (String.eqb k key) eqn:E; cbn [Py.lookup]; rewrite E.
    + reflexivity.
    + exact IH.
Qed.

(** X17: an authenticated request for clients_interests whose arguments
    construct is answered with status 200 and the dict of interests of its
    identifiers, keys in order of first occurrence; the context then holds
    under nclients the length of the list, repeated identifiers counted. *)
Theorem X17_interests_through_handler (request : dict) (w w1 w2 : world)
    inst u :
  MethodRequest.init request w = (Ok inst, w1) ->
  MethodRequest.check_auth w1 = (Ok true, w1) ->
  values w1 MR_method = PStr "clients_interests" ->
  ClientsInterestsRequest.init (values w1 MR_arguments) w1 = (Ok u, w2) ->
  exists ids m w3,
    values w2 CI_client_ids = PList ids
    /\ Api.method_handler request w = (Ok (InterestsDict m, Api.OK), w3)
    /\ mapping_keys m = first_seen (map Py.int_value ids)
    /\ Py.lookup (ctx w3) "nclients"
       = Some (PInt (Z.of_nat (List.length ids))).
Proof.
  intros Hinit Hca Hm Hci.
  assert (Hids : exists ids, values w2 CI_client_ids = PList ids
                             /\ forallb Py.is_int ids = true).
  { clear - Hci. unfold ClientsInterestsRequest.init in Hci. peel Hci.
    apply descriptor_set_ok in Hci. destruct Hci as [-> _].
    destruct Hc0 as [e Hc0]. unfold Validators.validate in Hc0.
    cbn [descriptor_of field_kind] in Hc0. inversion Hc0 as [Hv].
    apply (f_equal fst) in Hv. cbn [fst] in Hv.
    unfold Validators.ClientIDsField_validate in Hv. cbn [required nullable] in Hv.
    destruct a as [|b|n|s|items|d]; try discriminate Hv.
    cbn in Hv. destruct (forallb Py.is_int items) eqn:Hall; [|discriminate Hv].
    exists items. read_values. split; [reflexivity | exact Hall]. }
  destruct Hids as (ids & Hids & Hall).
  pose (w2' := set_ctx w2 (Py.dict_set (ctx w2) "nclients"
                             (PInt (Z.of_nat (List.length ids))))).
  destruct (execute_for_any_clients w2' ids Hids Hall)
    as (m & w3 & Hex & Hk & _ & _ & _ & _ & _ & Hctx).
  exists ids, m, w3. split; [exact Hids|].
  split; [|split; [exact Hk|]].
  - unfold Api.method_handler, Api.method_handler_with.
    rewrite (bind_step _ _ _ _ _ (handler_first_try _ _ _ _ Hinit)).
    rewrite (bind_step _ _ _ _ _ Hca). cbn [negb].
    unfold try_except_ValueError.
    unfold bind at 1. unfold descriptor_get at 1.
    rewrite Hm. cbn [Py.eq_str].
    change (String.eqb "clients_interests" "online_score") with false.
    change (String.eqb "clients_interests" "clients_interests") with true.
    cbv iota.
    unfold bind at 1. unfold descriptor_get at 1.
    rewrite (bind_step _ _ _ _ _ Hci).
    unfold bind at 1. unfold descriptor_get at 1. rewrite Hids.
    unfold bind at 1. unfold lift at 1. cbn [Py.len_of].
    unfold bind at 1. unfold Api.ctx_setitem at 1.
    fold w2'. rewrite (bind_step _ _ _ _ _ Hex). reflexivity.
  - rewrite Hctx. unfold w2'. cbn [ctx set_ctx]. apply lookup_dict_set.
Qed.

Lemma X17_interests_through_handler_witness :
  exists ids m w3,
    Api.method_handler
      (envelope "h&f" user_token "clients_interests"
         [("client_ids", PList [PInt 2; PInt 1; PInt 2]);
          ("date", PStr "19.07.2017")]) fresh_world
    = (Ok (InterestsDict m, 200), w3)
    /\ mapping_keys m = first_seen (map Py.int_value ids)
    /\ Py.lookup (ctx w3) "nclients" = Some (PInt (Z.of_nat (List.length ids))).
Proof.
  edestruct (X17_interests_through_handler
               (envelope "h&f" user_token "clients_interests"
                  [("client_ids", PList [PInt 2; PInt 1; PInt 2]);
                   ("date", PStr "19.07.2017")]) fresh_world)
    as (ids & m & w3 & _ & H & Hk & Hn);
    [ reflexivity | vm_compute; reflexivity | reflexivity | reflexivity | ].
  exists ids, m, w3. split; [exact H | split; [exact Hk | exact Hn]].
Defined.

(** X21: when the constructor of the argument schema raises [ValueError]
    for an authenticated request, for either method, the dispatcher
    answers the text of the exception with status 422, in the world the
    failed constructor left. *)
Theorem X21_invalid_arguments_are_422 (request : dict) (w w1 w2 : world)
    inst (msg : string) :
  MethodRequest.init request w = (Ok inst, w1) ->
  MethodRequest.check_auth w1 = (Ok true, w1) ->
  (values w1 MR_method = PStr "online_score"
   /\ OnlineScoreRequest.init (values w1 MR_arguments) w1
      = (Raise (ValueError msg), w2))
  \/ (values w1 MR_method = PStr "clients_interests"
      /\ ClientsInterestsRequest.init (values w1 MR_arguments) w1
         = (Raise (ValueError msg), w2)) ->
  Api.method_handler request w = (Ok (Message msg, Api.INVALID_REQUEST), w2).
Proof.
  intros Hinit Hca Hcases.
  unfold Api.method_handler, Api.method_handler_with.
  rewrite (bind_step _ _ _ _ _ (handler_first_try _ _ _ _ Hinit)).
  rewrite (bind_step _ _ _ _ _ Hca). cbn [negb].
  unfold try_except_ValueError.
  unfold bind at 1. unfold descriptor_get at 1.
  destruct Hcases as [[Hm Hraise]|[Hm Hraise]]; rewrite Hm; cbn [Py.eq_str].
  - change (String.eqb "online_score" "online_score") with true. cbv iota.
    unfold bind at 1. unfold descriptor_get at 1.
    rewrite (bind_raise _ _ _ _ _ Hraise). reflexivity.
  - change (String.eqb "clients_interests" "online_score") with false.
    change (String.eqb "clients_interests" "clients_interests") with true.
    cbv iota.
    unfold bind at 1. unfold descriptor_get at 1.
    rewrite (bind_raise _ _ _ _ _ Hraise). reflexivity.
Qed.

Lemma X21_invalid_arguments_are_422_witness :
  fst (Api.method_handler
         (envelope "h&f" user_token "clients_interests"
            [("client_ids", PList [PInt 1; PInt 2; PInt 3])]) fresh_world)
  = Ok (Message "Invalid field value for date: date must be a valid date", 422).
Proof.
  refine (f_equal fst (X21_invalid_arguments_are_422
            (envelope "h&f" user_token "clients_interests"
               [("client_ids", PList [PInt 1; PInt 2; PInt 3])])
            fresh_world _ _
            {| MethodRequest.body :=
                 Py.dict_get
                   (envelope "h&f" user_token "clients_interests"
                      [("client_ids", PList [PInt 1; PInt 2; PInt 3])])
                   "body" (PDict []) |}
            "Invalid field value for date: date must be a valid date"
            eq_refl _ (or_intror (conj eq_refl eq_refl)))).
  vm_compute. reflexivity.
Defined.

End InterestsThroughTheHandler.

Section HttpHandler.

Import MainHTTPHandler.

(** X18: a body that cannot be read or decoded, and a decoded body that
    is empty or null ([{}], [[]], [0], the empty text, [false], [null]),
    are answered "Invalid request" with status 400, whatever the path; no
    field is assigned. *)
Theorem X18_empty_body_is_bad_request (request_id path : string)
    (request : option pyval) (w : world) :
  (request = None \/ exists b, request = Some b /\ Py.truthy b = false) ->
  do_POST request_id request path w
  = (Api.Error (Message "Invalid request") Api.BAD_REQUEST,
     set_ctx w [("request_id", PStr request_id)]).
Proof.
  intros [->|(b & -> & Hb)]; unfold do_POST; [reflexivity|].
  rewrite Hb. reflexivity.
Qed.

Lemma X18_empty_body_is_bad_request_witness :
  do_POST "1f" (Some (PDict [])) "/method" fresh_world
  = (Api.Error (Message "Invalid request") 400,
     set_ctx fresh_world [("request_id", PStr "1f")]).
Proof.
  apply X18_empty_body_is_bad_request.
  right. exists (PDict []). split; reflexivity.
Defined.

Lemma lstrip_slashes (n : nat) (cs : list ascii) :
  lstrip_slash (list_ascii_of_string (slashes n) ++ cs) = lstrip_slash cs.
Proof. induction n as [|n IH]; [reflexivity | exact IH]. Qed.

Lemma list_ascii_app (s t : string) :
  list_ascii_of_string (s ++ t)
  = (list_ascii_of_string s ++ list_ascii_of_string t)%list.
Proof. induction s as [|c s IH]; cbn; [reflexivity | now rewrite IH]. Qed.

Lemma rev_slashes (n : nat) :
  rev (list_ascii_of_string (slashes n)) = list_ascii_of_string (slashes n).
Proof.
  induction n as [|n IH]; [reflexivity|]. cbn [slashes list_ascii_of_string rev].
  rewrite IH. clear IH. induction n as [|n IH]; [reflexivity|].
  cbn [slashes list_ascii_of_string app]. now rewrite IH.
Qed.

Lemma strip_slash_method (n k : nat) :
  strip_slash (slashes n ++ "method" ++ slashes k) = "method".
Proof.
  unfold strip_slash. rewrite !list_ascii_app, lstrip_slashes.
  change (lstrip_slash (list_ascii_of_string "method"
                        ++ list_ascii_of_string (slashes k))%list)
    with (list_ascii_of_string "method" ++ list_ascii_of_string (slashes k))%list.
  rewrite rev_app_distr, rev_slashes, lstrip_slashes. reflexivity.
Qed.

(** X19: for a non-empty body the path is looked up with the slashes at its
    ends dropped: any number of slashes around method reaches the
    dispatcher, with a fresh context holding the request identifier, and
    every other path is answered "Not Found" with status 404 before
    anything is validated. *)
Theorem X19_routing (request_id : string) (body : pyval) (w : world) :
  Py.truthy body = true ->
  (forall n k,
     do_POST request_id (Some body) (slashes n ++ "method" ++ slashes k) w
     = Api.do_POST_reply [("body", body)]
         (set_ctx w [("request_id", PStr request_id)]))
  /\ (forall path, strip_slash path <> "method" ->
       do_POST request_id (Some body) path w
       = (Api.Error (Message "Not Found") Api.NOT_FOUND,
          set_ctx w [("request_id", PStr request_id)])).
Proof.
  intros Hb. split.
  - intros n k. unfold do_POST. rewrite Hb, strip_slash_method. reflexivity.
  - intros path Hp. unfold do_POST, router. rewrite Hb.
    apply String.eqb_neq in Hp. rewrite Hp. reflexivity.
Qed.

Lemma X19_routing_witness :
  do_POST "1f" (Some (PDict [("login", PStr "h&f")])) "//method/" fresh_world
  = Api.do_POST_reply [("body", PDict [("login", PStr "h&f")])]
      (set_ctx fresh_world [("request_id", PStr "1f")])
  /\ do_POST "1f" (Some (PDict [("login", PStr "h&f")])) "" fresh_world
     = (Api.Error (Message "Not Found") 404,
        set_ctx fresh_world [("request_id", PStr "1f")]).
Proof.
  destruct (X19_routing "1f" (PDict [("login", PStr "h&f")]) fresh_world eq_refl)
    as [Hm Hn].
  split.
  - exact (Hm 2%nat 1%nat).
  - apply (Hn ""). discriminate.
Defined.

(** X20: whatever it is sent, [do_POST] writes either a response with
    status 200, which is always a dict of interests, or an error that is a
    text with one of the statuses 400, 403, 404, 422 and 500. *)
Theorem X20_replies (request_id path : string) (request : option pyval)
    (w : world) :
  match fst (do_POST request_id request path w) with
  | Api.Response response code =>
      code = Api.OK /\ exists m, response = InterestsDict m
  | Api.Error error code =>
      is_error_status code = true /\ exists text, error = Message text
  end.
Proof.
  unfold do_POST.
  destruct request as [body|]; [|cbn; split; [reflexivity | eexists; reflexivity]].
  destruct (Py.truthy body);
    [|cbn; split; [reflexivity | eexists; reflexivity]].
  unfold router. destruct (String.eqb (strip_slash path) "method");
    [|cbn; split; [reflexivity | eexists; reflexivity]].
  unfold Api.do_POST_reply.
  destruct (Api.method_handler _ _) as [[[response code]|e] w'] eqn:E;
    [|cbn; split; [reflexivity | eexists; reflexivity]].
  destruct (handler_outcomes _ _ _ _ _ E)
    as [[-> [m ->]]|[[-> ->]|[-> [msg ->]]]]; cbn.
  - split; [reflexivity | exists m; reflexivity].
  - split; [reflexivity | eexists; reflexivity].
  - split; [reflexivity|]. destruct (negb (String.eqb msg "")); eexists; reflexivity.
Qed.

End HttpHandler.
